(** * Fairfax letter finder: a shallow embedding of [fairfax_letter_finder.py]

    The development follows the layout of the Python module:
    - [Str]    : the [str] primitives the program calls ([strip], [split],
                 [join], [in], [startswith], [int]);
    - [Re]     : the fragment of Python's [re] the program's patterns use, as a
                 backtracking matcher that lists its successes in the order
                 the [sre] engine tries them;
    - [Scorer] : [OCRProcessor.analyze_text];
    - [Py]     : [sorted], truth values, dict lookup, raised exceptions;
    - [Env]    : the world outside the process (clock, network and OCR
                 oracles, event trace);
    - [Client] : [ArchiveAPIClient] ([_rate_limit], [search], [get_document],
                 [download_document_image]);
    - [Agent]  : [FairfaxLetterAgent] (searches, [download_documents],
                 [process_ocr], [extract_letter_content],
                 [execute_full_search]);
    - [Spec]   : the vocabulary in which the properties are stated.

    A Python [str] is modelled as a [string] whose characters are the code
    points 0..255; the character classes below are those of CPython on that
    range. *)

From Stdlib Require Import String Ascii List Bool Arith ZArith NArith QArith Lia Lqa.
From Stdlib Require Import Sorted Permutation.
Import ListNotations.

Local Open Scope list_scope.

(* ================================================================== *)
(** ** Python [str] primitives *)

Module Str.

Definition code (a : ascii) : N := N_of_ascii a.

Definition between (lo hi : N) (a : ascii) : bool :=
  (N.leb lo (code a) && N.leb (code a) hi)%bool.

Definition is_code (n : N) (a : ascii) : bool := N.eqb (code a) n.

(** [str.isdecimal] on one character: the class [\d] of a [str] pattern. *)
Definition is_decimal (a : ascii) : bool := between 48 57 a.

(** [str.isspace] on one character: the class [\s], and what [strip] removes. *)
Definition is_space (a : ascii) : bool :=
  between 9 13 a || between 28 32 a || is_code 133 a || is_code 160 a.

Definition is_alpha (a : ascii) : bool :=
  between 65 90 a || between 97 122 a
  || is_code 170 a || is_code 181 a || is_code 186 a
  || between 192 214 a || between 216 246 a || between 248 255 a.

(** [str.isalnum] on one character (letters, decimals, and the numeric
    characters of the range: superscripts and vulgar fractions). *)
Definition is_alnum (a : ascii) : bool :=
  is_alpha a || is_decimal a
  || is_code 178 a || is_code 179 a || is_code 185 a || between 188 190 a.

(** The class [\w]. *)
Definition is_word (a : ascii) : bool := is_alnum a || is_code 95 a.

(** Simple lower-casing, as [re.IGNORECASE] applies it to a character. *)
Definition lower (a : ascii) : ascii :=
  if between 65 90 a || between 192 214 a || between 216 222 a
  then ascii_of_N (code a + 32) else a.

Definition nl : ascii := ascii_of_N 10.

Definition is_empty (s : string) : bool :=
  match s with EmptyString => true | String _ _ => false end.

Fixpoint lstrip (s : string) : string :=
  match s with
  | EmptyString => EmptyString
  | String a s' => if is_space a then lstrip s' else s
  end.

Fixpoint rstrip (s : string) : string :=
  match s with
  | EmptyString => EmptyString
  | String a s' =>
      let r := rstrip s' in
      if is_empty r && is_space a then EmptyString else String a r
  end.

(** [s.strip()] *)
Definition strip (s : string) : string := rstrip (lstrip s).

(** [s.split("\n")]: always at least one piece. *)
Fixpoint split_nl (s : string) : list string :=
  match s with
  | EmptyString => [EmptyString]
  | String a s' =>
      if Ascii.eqb a nl then EmptyString :: split_nl s'
      else match split_nl s' with
           | h :: t => String a h :: t
           | [] => [String a EmptyString]
           end
  end.

(** [sep.join(l)] *)
Fixpoint join (sep : string) (l : list string) : string :=
  match l with
  | [] => EmptyString
  | [x] => x
  | x :: l' => (x ++ sep ++ join sep l')%string
  end.

(** [s.startswith(p)] *)
Definition startswith (p s : string) : bool := String.prefix p s.

(** [needle in s] *)
Fixpoint contains (needle s : string) : bool :=
  String.prefix needle s
  || match s with
     | EmptyString => false
     | String _ s' => contains needle s'
     end.

(** [s.replace(a, b)] for a one-character [a]. *)
Fixpoint replace_char (a : ascii) (b : string) (s : string) : string :=
  match s with
  | EmptyString => EmptyString
  | String c s' =>
      if Ascii.eqb c a then (b ++ replace_char a b s')%string
      else String c (replace_char a b s')
  end.

(** The digits of a decimal literal, underscores allowed between digits. *)
Fixpoint digits_value (s : string) (acc : Z) (after_digit : bool) : option Z :=
  match s with
  | EmptyString => if after_digit then Some acc else None
  | String a s' =>
      if is_decimal a
      then digits_value s' (10 * acc + Z.of_N (code a - 48))%Z true
      else if is_code 95 a && after_digit
           then match s' with
                | String b _ => if is_decimal b then digits_value s' acc false else None
                | EmptyString => None
                end
           else None
  end.

(** [int(s)] for a [str] argument: [None] stands for [ValueError]. *)
Definition int (s : string) : option Z :=
  match strip s with
  | String "+" r => digits_value r 0 false
  | String "-" r => option_map Z.opp (digits_value r 0 false)
  | r => digits_value r 0 false
  end.

(** Decimal rendering of a natural number, as an f-string prints it. *)
Definition digit_char (n : nat) : ascii := ascii_of_nat (48 + n mod 10).

Fixpoint nat_digits (fuel n : nat) (acc : string) : string :=
  match fuel with
  | O => acc
  | S fuel' =>
      let acc' := String (digit_char n) acc in
      if Nat.ltb n 10 then acc' else nat_digits fuel' (n / 10) acc'
  end.

Definition str_of_nat (n : nat) : string := nat_digits (S n) n EmptyString.

End Str.

(* ================================================================== *)
(** ** The fragment of [re] used by the program *)

Module Re.

Inductive cclass : Type :=
| CDigit                      (* \d *)
| CSpace                      (* \s *)
| CWord                       (* \w *)
| CRange (lo hi : ascii).     (* [lo-hi] *)

Inductive regex : Type :=
| RChar (a : ascii)                   (* a literal character *)
| RClass (c : cclass)                 (* one character of a class *)
| RWordB                              (* \b *)
| REmpty
| RSeq (r1 r2 : regex)
| RAlt (r1 r2 : regex)                (* r1|r2 *)
| RRep (c : cclass) (lo hi : nat)     (* c{lo,hi}, greedy *)
| RPlus (c : cclass)                  (* c+, greedy *)
| RGroup (r : regex).                 (* (r), capturing *)

Definition in_class (c : cclass) (a : ascii) : bool :=
  match c with
  | CDigit => Str.is_decimal a
  | CSpace => Str.is_space a
  | CWord => Str.is_word a
  | CRange lo hi => Str.between (Str.code lo) (Str.code hi) a
  end.

(** A literal against a text character; [ic] is [re.IGNORECASE]. *)
Definition chr_eq (ic : bool) (a b : ascii) : bool :=
  if ic then Ascii.eqb (Str.lower a) (Str.lower b) else Ascii.eqb a b.

Definition word_before (prev : option ascii) : bool :=
  match prev with Some a => Str.is_word a | None => false end.

Definition word_here (s : string) : bool :=
  match s with String a _ => Str.is_word a | EmptyString => false end.

(** [\b]: exactly one side of the position is a word character. *)
Definition at_boundary (prev : option ascii) (s : string) : bool :=
  xorb (word_before prev) (word_here s).

Fixpoint last_char (s : string) (d : option ascii) : option ascii :=
  match s with
  | EmptyString => d
  | String a s' => last_char s' (Some a)
  end.

(** The ways [c{lo,hi}] can consume a prefix of [s], longest first:
    (consumed, rest). *)
Fixpoint rep_class (c : cclass) (lo hi : nat) (s : string) : list (string * string) :=
  match hi with
  | O => if Nat.eqb lo 0 then [(EmptyString, s)] else []
  | S hi' =>
      (match s with
       | String a s' =>
           if in_class c a
           then map (fun '(u, v) => (String a u, v)) (rep_class c (Nat.pred lo) hi' s')
           else []
       | EmptyString => []
       end)
      ++ (if Nat.eqb lo 0 then [(EmptyString, s)] else [])
  end.

(** One way the pattern matches at the current position: the text consumed,
    the text left, and the captured groups in the order their parentheses
    open. *)
Definition mresult : Type := (string * string * list string)%type.

(** All the ways [r] matches a prefix of [s], in the order a backtracking
    engine tries them; [prev] is the character before the position. *)
Fixpoint rmatch (ic : bool) (r : regex) (prev : option ascii) (s : string)
  : list mresult :=
  match r with
  | RChar a =>
      match s with
      | String b s' => if chr_eq ic a b then [(String b EmptyString, s', [])] else []
      | EmptyString => []
      end
  | RClass c =>
      match s with
      | String b s' => if in_class c b then [(String b EmptyString, s', [])] else []
      | EmptyString => []
      end
  | RWordB => if at_boundary prev s then [(EmptyString, s, [])] else []
  | REmpty => [(EmptyString, s, [])]
  | RSeq r1 r2 =>
      flat_map
        (fun '(c1, s1, g1) =>
           map (fun '(c2, s2, g2) => ((c1 ++ c2)%string, s2, g1 ++ g2))
               (rmatch ic r2 (last_char c1 prev) s1))
        (rmatch ic r1 prev s)
  | RAlt r1 r2 => rmatch ic r1 prev s ++ rmatch ic r2 prev s
  | RRep c lo hi => map (fun '(u, v) => (u, v, [])) (rep_class c lo hi s)
  | RPlus c => map (fun '(u, v) => (u, v, [])) (rep_class c 1 (String.length s) s)
  | RGroup r1 => map (fun '(c, s', g) => (c, s', c :: g)) (rmatch ic r1 prev s)
  end.

(** The first match starting at the current position or later: the match a
    scan from the left reports. *)
Fixpoint search_from (ic : bool) (r : regex) (prev : option ascii) (s : string)
  : option mresult :=
  match rmatch ic r prev s with
  | m :: _ => Some m
  | [] =>
      match s with
      | String a s' => search_from ic r (Some a) s'
      | EmptyString => None
      end
  end.

(** [re.search(r, text, flags)] *)
Definition search (ic : bool) (r : regex) (text : string) : option mresult :=
  search_from ic r None text.

(** Truth value of [re.search(...)] in a condition. *)
Definition found (ic : bool) (r : regex) (text : string) : bool :=
  match search ic r text with Some _ => true | None => false end.

(** The scan of [re.findall]: [skip] characters of the last match are still to
    be passed over before the next attempt. *)
Fixpoint findall_from (ic : bool) (r : regex) (prev : option ascii) (s : string)
  (skip : nat) : list (list string) :=
  match skip with
  | S n =>
      match s with
      | String a s' => findall_from ic r (Some a) s' n
      | EmptyString => []
      end
  | O =>
      match rmatch ic r prev s with
      | (c, _, g) :: _ =>
          g :: match s with
               | String a s' => findall_from ic r (Some a) s' (Nat.pred (String.length c))
               | EmptyString => []
               end
      | [] =>
          match s with
          | String a s' => findall_from ic r (Some a) s' 0
          | EmptyString => []
          end
      end
  end.

(** [re.findall(r, text)] for a pattern with groups: the groups of each
    match, left to right, matches not overlapping. *)
Definition findall (r : regex) (text : string) : list (list string) :=
  findall_from false r None text 0.

(** A literal word of the pattern, character by character. *)
Fixpoint lit (s : string) : regex :=
  match s with
  | EmptyString => REmpty
  | String a EmptyString => RChar a
  | String a s' => RSeq (RChar a) (lit s')
  end.

(** [w1|w2|...] *)
Fixpoint alt_lits (ws : list string) : regex :=
  match ws with
  | [] => REmpty
  | [w] => lit w
  | w :: ws' => RAlt (lit w) (alt_lits ws')
  end.

End Re.

(* ================================================================== *)
(** ** [OCRProcessor.analyze_text] *)

Module Scorer.
Import Re.

Record Analysis : Type := mkAnalysis {
  likely_correspondence : bool;
  mentions_churchill : bool;
  mentions_fairfax : bool;
  date_found : option string;
  relevance_score : Z
}.

Definition initial_analysis : Analysis :=
  mkAnalysis false false false None 0.

Definition set_likely (b : bool) (a : Analysis) : Analysis :=
  mkAnalysis b (mentions_churchill a) (mentions_fairfax a) (date_found a)
             (relevance_score a).

Definition set_churchill (b : bool) (a : Analysis) : Analysis :=
  mkAnalysis (likely_correspondence a) b (mentions_fairfax a) (date_found a)
             (relevance_score a).

Definition set_fairfax (b : bool) (a : Analysis) : Analysis :=
  mkAnalysis (likely_correspondence a) (mentions_churchill a) b (date_found a)
             (relevance_score a).

Definition set_date (d : option string) (a : Analysis) : Analysis :=
  mkAnalysis (likely_correspondence a) (mentions_churchill a)
             (mentions_fairfax a) d (relevance_score a).

(** [analysis["relevance_score"] += n] *)
Definition add_score (n : Z) (a : Analysis) : Analysis :=
  mkAnalysis (likely_correspondence a) (mentions_churchill a)
             (mentions_fairfax a) (date_found a) (relevance_score a + n)%Z.

(** [\bw\b] *)
Definition word_pat (w : string) : regex := RSeq RWordB (RSeq (lit w) RWordB).

(** [\bprime\s+minister\b] *)
Definition prime_minister_pat : regex :=
  RSeq RWordB
       (RSeq (lit "prime") (RSeq (RPlus CSpace) (RSeq (lit "minister") RWordB))).

Definition churchill_patterns : list regex :=
  [word_pat "churchill"; word_pat "winston"; prime_minister_pat].

Definition fairfax_patterns : list regex :=
  [word_pat "fairfax"; word_pat "bryan"; word_pat "colonel"].

Definition month_names : list string :=
  ["January"; "February"; "March"; "April"; "May"; "June"; "July"; "August";
   "September"; "October"; "November"; "December"]%string.

(** [(\d{1,2})\s+(January|...|December)\s+(19[0-9]{2})] *)
Definition date_pattern : regex :=
  RSeq (RGroup (RRep CDigit 1 2))
       (RSeq (RPlus CSpace)
             (RSeq (RGroup (alt_lits month_names))
                   (RSeq (RPlus CSpace)
                         (RGroup (RSeq (lit "19") (RRep (CRange "0" "9") 2 2)))))).

(** The loop [for pattern in patterns: if re.search(...): ...; break]:
    the first pattern that matches sets the flag, adds 10 and ends the loop. *)
Fixpoint mention_loop (mark : Analysis -> Analysis) (patterns : list regex)
  (text : string) (a : Analysis) : Analysis :=
  match patterns with
  | [] => a
  | p :: ps =>
      if found true p text then add_score 10 (mark a)
      else mention_loop mark ps text a
  end.

Definition month_mapping : list (string * Z) :=
  [("January", 1); ("February", 2); ("March", 3); ("April", 4); ("May", 5);
   ("June", 6); ("July", 7); ("August", 8); ("September", 9); ("October", 10);
   ("November", 11); ("December", 12)]%string%Z.

(** [d.get(k, default)] on a dict written as its item list. *)
Fixpoint dict_get (d : list (string * Z)) (k : string) (default : Z) : Z :=
  match d with
  | [] => default
  | (k', v) :: d' => if String.eqb k k' then v else dict_get d' k default
  end.

Inductive exn : Type := ValueError.

(** The body of the [try]: it returns the analysis as mutated so far and the
    exception that interrupted it, if any. *)
Definition date_block (m : list string) (a : Analysis) : Analysis * option exn :=
  match m with
  | [day; month; year] =>
      let a1 := set_date (Some (day ++ " " ++ month ++ " " ++ year)%string) a in
      match Str.int year with
      | None => (a1, Some ValueError)
      | Some y =>
          if ((y =? 1946)%Z && (dict_get month_mapping month 0 >=? 10)%Z)%bool
          then (add_score 30 a1, None)
          else (a1, None)
      end
  | _ => (a, Some ValueError)
  end.

(** [date_matches = re.findall(...)]; [if date_matches: try: ... except: log]. *)
Definition date_step (text : string) (a : Analysis) : Analysis :=
  match findall date_pattern text with
  | [] => a
  | m :: _ => fst (date_block m a)
  end.

Definition verdict_step (a : Analysis) : Analysis :=
  if (mentions_churchill a && mentions_fairfax a
      && (relevance_score a >=? 20)%Z)%bool
  then set_likely true a else a.

Definition analyze_text (text : string) : Analysis :=
  let a0 := initial_analysis in
  let a1 := mention_loop (set_churchill true) churchill_patterns text a0 in
  let a2 := mention_loop (set_fairfax true) fairfax_patterns text a1 in
  let a3 := date_step text a2 in
  verdict_step a3.

End Scorer.

(* ================================================================== *)
(** ** Python built-ins on lists *)

Module Py.

(** Insertion in front of the first element whose key is not smaller. *)
Fixpoint insert_by {A : Type} (key : A -> Z) (x : A) (l : list A) : list A :=
  match l with
  | [] => [x]
  | y :: l' => if (key x <=? key y)%Z then x :: l else y :: insert_by key x l'
  end.

(** [sorted(l, key=key)]: the stable sort by ascending key.  The result of a
    stable sort does not depend on the algorithm ([sorted_stable],
    [sorted_ordered] below), so insertion stands for CPython's merge sort. *)
Definition sorted {A : Type} (key : A -> Z) (l : list A) : list A :=
  fold_right (insert_by key) [] l.

(** [sorted(l, key=key, reverse=True)]: descending, ties in input order. *)
Definition sorted_reverse {A : Type} (key : A -> Z) (l : list A) : list A :=
  sorted (fun x => (- key x)%Z) l.

(** Truth value of an optional string: [None] and [""] are false. *)
Definition truthy (o : option string) : bool :=
  match o with
  | Some s => negb (Str.is_empty s)
  | None => false
  end.

(** [any(p(x) for x in l)] *)
Definition any {A : Type} (p : A -> bool) (l : list A) : bool := existsb p l.

(** [d.get(k)] on a dict written as its item list. *)
Fixpoint lookup (k : string) (d : list (string * string)) : option string :=
  match d with
  | [] => None
  | (k', v) :: d' => if String.eqb k k' then Some v else lookup k d'
  end.

Definition or_default (o : option string) (d : string) : string :=
  match o with Some s => s | None => d end.

(** What a function call gives back: a value, or an exception on its way up. *)
Inductive result (A : Type) : Type :=
| Ret (a : A)
| Raise (e : string).
Arguments Ret {A} a.
Arguments Raise {A} e.

End Py.

(* ================================================================== *)
(** ** The world outside the process

    The clock, the network and the OCR engine are oracles.  Time is an exact
    rational number of seconds.  The local file system is taken to work:
    creating a directory and writing a file do not fail. *)

Module Env.

(** One search hit of a response, with the keys the program reads; a key the
    response lacks is [None]. *)
Record Item : Type := mkItem {
  i_reference : option string;
  i_title : option string;
  i_date : option string;
  i_id : option string;
  i_images : option (list string)
}.

(** A response object: its ["error"] key, and its ["results"] key (a missing
    one reads as the empty list). *)
Record Json : Type := mkJson {
  j_error : option string;
  j_results : list Item
}.

Inductive Body : Type :=
| JsonObject (j : Json)
| NotJson (as_request_exception : bool).
    (* [response.json()] raises; with [true] the error is a
       [requests.RequestException] (requests 2.27 and later). *)

(** How one HTTP exchange ends. *)
Inductive exchange : Type :=
| Failed (msg : string)      (* a [requests.RequestException] *)
| Answered (body : Body).    (* a 2xx response *)

Inductive event : Type :=
| EvSleep (d : Q)
| EvGet (url : string) (params : list (string * string))
| EvWrite (path : string).

Record World : Type := mkWorld {
  clock : Q;                   (* the time now *)
  lag : nat -> Q;              (* time that passes before the n-th primitive *)
  ticks : nat;                 (* primitives run so far *)
  net : nat -> exchange;       (* how the n-th exchange ends *)
  requests : nat;              (* exchanges so far *)
  ocr_engine : string -> option string;
                               (* text of an image; [None]: the engine raises *)
  trace : list event           (* what happened, oldest first *)
}.

(** Time moves on before a primitive runs. *)
Definition elapse (w : World) : World :=
  mkWorld (clock w + lag w (ticks w)) (lag w) (S (ticks w)) (net w)
          (requests w) (ocr_engine w) (trace w).

Definition emit (e : event) (w : World) : World :=
  mkWorld (clock w) (lag w) (ticks w) (net w) (requests w) (ocr_engine w)
          (trace w ++ [e]).

(** [time.time()] *)
Definition time_time (w : World) : Q * World :=
  let w' := elapse w in (clock w', w').

(** [time.sleep(d)]: at least [d] seconds pass. *)
Definition time_sleep (d : Q) (w : World) : World :=
  let w' := elapse w in
  emit (EvSleep d)
       (mkWorld (clock w' + d) (lag w') (ticks w') (net w') (requests w')
                (ocr_engine w') (trace w')).

(** [session.get(url, ...)] up to the point the response is consumed. *)
Definition session_get (url : string) (params : list (string * string))
  (w : World) : exchange * World :=
  let w' := elapse w in
  (net w' (requests w'),
   emit (EvGet url params)
        (mkWorld (clock w') (lag w') (ticks w') (net w') (S (requests w'))
                 (ocr_engine w') (trace w'))).

(** [with open(path, 'wb') as f: ...] *)
Definition write_file (path : string) (w : World) : World :=
  emit (EvWrite path) w.

(** The clock never runs backwards. *)
Definition steady (w : World) : Prop := forall n, 0 <= lag w n.

(** [os.path.join(a, b)] on a POSIX system. *)
Definition path_join (a b : string) : string :=
  match b with
  | String "/" _ => b
  | _ =>
      if Str.is_empty a then b
      else match Re.last_char a None with
           | Some "/"%char => (a ++ b)%string
           | _ => (a ++ "/" ++ b)%string
           end
  end.

(** The part of [base] up to and including its last [/]. *)
Fixpoint dirname_slash (base : string) : string :=
  match base with
  | EmptyString => EmptyString
  | String a s' =>
      if Str.contains "/" s' || Ascii.eqb a "/" then String a (dirname_slash s')
      else EmptyString
  end.

(** [urljoin(base, rel)] for a relative path [rel] with no scheme, leading
    slash or dot segments: the last path segment of [base] is replaced. *)
Definition urljoin (base rel : string) : string :=
  (dirname_slash base ++ rel)%string.

End Env.

(* ================================================================== *)
(** ** [ArchiveAPIClient] *)

Module Client.
Import Py Env.

Definition MAX_DOWNLOAD_RETRIES : nat := 3.
Definition RATE_LIMIT_DELAY : Q := 1.

Record Client : Type := mkClient {
  name : string;
  base_url : string;
  endpoints : list (string * string);
  collections : list string;
  api_key : option string;
  last_request_time : Q
}.

Definition set_last_request_time (t : Q) (c : Client) : Client :=
  mkClient (name c) (base_url c) (endpoints c) (collections c) (api_key c) t.

(** An archive of [ARCHIVES]. *)
Record ArchiveConfig : Type := mkArchive {
  a_name : string;
  a_base_url : string;
  a_endpoints : list (string * string);
  a_api_key_env : string;
  a_collections : list string
}.

(** [ArchiveAPIClient.__init__]; [environ] is [os.environ]. *)
Definition init (environ : list (string * string)) (cfg : ArchiveConfig) : Client :=
  mkClient (a_name cfg) (a_base_url cfg) (a_endpoints cfg) (a_collections cfg)
           (lookup (a_api_key_env cfg) environ) 0.

Definition _rate_limit (c : Client) (w : World) : Client * World :=
  let '(current_time, w1) := time_time w in
  let time_since_last := current_time - last_request_time c in
  let w2 :=
    if negb (Qle_bool RATE_LIMIT_DELAY time_since_last)
    then time_sleep (RATE_LIMIT_DELAY - time_since_last) w1
    else w1 in
  let '(t, w3) := time_time w2 in
  (set_last_request_time t c, w3).

(** A calendar date, for the search window. *)
Record datetime : Type := mkDate { year : nat; month : nat; day : nat }.

Definition pad2 (n : nat) : string :=
  if Nat.ltb n 10 then ("0" ++ Str.str_of_nat n)%string else Str.str_of_nat n.

Definition pad4 (n : nat) : string :=
  ((if Nat.ltb n 1000 then "0" else "") ++ (if Nat.ltb n 100 then "0" else "")
   ++ (if Nat.ltb n 10 then "0" else "") ++ Str.str_of_nat n)%string.

(** [d.strftime("%Y-%m-%d")] *)
Definition strftime_ymd (d : datetime) : string :=
  (pad4 (year d) ++ "-" ++ pad2 (month d) ++ "-" ++ pad2 (day d))%string.

(** The keyword arguments of [search]. *)
Record SearchParams : Type := mkParams {
  p_start_date : option datetime;
  p_end_date : option datetime;
  p_collection : option string;
  p_limit : option nat;
  p_page : option nat
}.

Definition nat_or (o : option nat) (d : nat) : nat :=
  match o with Some n => n | None => d end.

Definition _prepare_search_params (query : string) (params : SearchParams)
  : list (string * string) :=
  [("q", query);
   ("page", Str.str_of_nat (nat_or (p_page params) 1));
   ("limit", Str.str_of_nat (nat_or (p_limit params) 20))]%string
  ++ (match p_start_date params, p_end_date params with
      | Some s, Some e =>
          [("date_from", strftime_ymd s); ("date_to", strftime_ymd e)]%string
      | _, _ => []
      end)
  ++ (match p_collection params with
      | Some c => [("collection", c)]%string
      | None => []
      end).

Definition error_result (msg : string) : Json := mkJson (Some msg) [].

(** What the [try] of [search] and [get_document] makes of an exchange. *)
Definition read_json (x : exchange) : result Json :=
  match x with
  | Failed msg => Ret (error_result msg)
  | Answered (JsonObject j) => Ret j
  | Answered (NotJson true) => Ret (error_result "JSONDecodeError")
  | Answered (NotJson false) => Raise "ValueError"
  end.

Definition search (c : Client) (query : string) (params : SearchParams)
  (w : World) : result Json * Client * World :=
  let '(c1, w1) := _rate_limit c w in
  match lookup "search" (endpoints c1) with
  | None => (Raise "KeyError", c1, w1)
  | Some ep =>
      let endpoint := urljoin (base_url c1) ep in
      let search_params := _prepare_search_params query params in
      let '(x, w2) := session_get endpoint search_params w1 in
      (read_json x, c1, w2)
  end.

Definition get_document (c : Client) (doc_id : string) (w : World)
  : result Json * Client * World :=
  let '(c1, w1) := _rate_limit c w in
  match lookup "item" (endpoints c1) with
  | None => (Raise "KeyError", c1, w1)
  | Some ep =>
      let endpoint := urljoin (base_url c1) (urljoin ep doc_id) in
      let '(x, w2) := session_get endpoint [] w1 in
      (read_json x, c1, w2)
  end.

(** The loop [while retries < MAX_DOWNLOAD_RETRIES]; [remaining] is
    [MAX_DOWNLOAD_RETRIES - retries], so the test is [remaining <> 0]. *)
Fixpoint download_loop (remaining retries : nat) (image_url output_path : string)
  (w : World) : bool * World :=
  match remaining with
  | O => (false, w)
  | S remaining' =>
      let '(x, w1) := session_get image_url [] w in
      match x with
      | Answered _ => (true, write_file output_path w1)
      | Failed _ =>
          let retries' := S retries in
          let wait_time := (retries' * 2)%nat in
          let w2 := time_sleep (inject_Z (Z.of_nat wait_time)) w1 in
          download_loop remaining' retries' image_url output_path w2
      end
  end.

Definition download_document_image (c : Client) (image_url output_path : string)
  (w : World) : bool * Client * World :=
  let '(c1, w1) := _rate_limit c w in
  let '(ok, w2) :=
    download_loop MAX_DOWNLOAD_RETRIES 0 image_url output_path w1 in
  (ok, c1, w2).

End Client.

(* ================================================================== *)
(** ** [FairfaxLetterAgent] *)

Module Agent.
Import Py Env Client Scorer.
Local Open Scope string_scope.
Local Open Scope list_scope.

Definition OCR_OUTPUT_DIR : string := "ocr_results".
Definition DOWNLOAD_DIR : string := "downloaded_documents".

Definition ARCHIVES : list ArchiveConfig :=
  [mkArchive "Churchill Archives Centre" "https://archives.chu.cam.ac.uk/"
     [("search", "search"); ("item", "archives/record");
      ("collection", "archives/collection")]
     "CHURCHILL_API_KEY" ["CHAR"; "CHUR"];
   mkArchive "Library and Archives Canada"
     "https://recherche-collection-search.bac-lac.gc.ca/eng/home/"
     [("search", "record"); ("item", "item")]
     "LAC_API_KEY" ["MG30"; "RG24"];
   mkArchive "University of Toronto Archives" "https://utarms.library.utoronto.ca/"
     [("search", "index.php/informationobject/browse")]
     "UTARMS_API_KEY" ["B1994-0002"; "B2015-0005"]]%string.

(** An entry of [self.search_results]. *)
Record SearchRecord : Type := mkRecord {
  archive : string;
  reference : string;
  title : string;
  date : string;
  item_id : option string;
  image_urls : list string
}.

(** An entry of the list [download_documents] returns. *)
Record DownloadedDoc : Type := mkDoc {
  d_archive : string;
  d_reference : string;
  d_title : string;
  d_date : string;
  d_images : list string
}.

Record Page : Type := mkPage { image_path : string; text : string }.

(** An entry of the list [process_ocr] returns. *)
Record OcrResult : Type := mkOcr {
  o_archive : string;
  o_reference : string;
  o_title : string;
  o_date : string;
  pages : list Page;
  analysis : option Analysis
}.

(** The dict [letter_content]: its four possible keys, [None] when absent. *)
Record LetterContent : Type := mkContent {
  c_date : option string;
  c_salutation : option string;
  c_signature : option string;
  c_body : option string
}.

(** An entry of the list [extract_letter_content] returns. *)
Record Letter : Type := mkLetter {
  l_archive : string;
  l_reference : string;
  l_title : string;
  l_date : string;
  extracted_content : LetterContent;
  l_relevance_score : Z;
  full_text : string
}.

Record OCRProcessor : Type := mkOCR { output_dir : string; ocr_available : bool }.

Record Agent : Type := mkAgent {
  search_results : list SearchRecord;
  most_likely_locations : list string;
  api_clients : list Client;
  ocr_processor : OCRProcessor
}.

Definition search_window_start : datetime := mkDate 1946 10 1.
Definition search_window_end : datetime := mkDate 1946 12 5.

(** [FairfaxLetterAgent.__init__]; [has_ocr] tells whether the OCR
    dependencies load and the engine answers. *)
Definition init (environ : list (string * string)) (has_ocr : bool) : Agent :=
  mkAgent [] [] (map (Client.init environ) ARCHIVES) (mkOCR OCR_OUTPUT_DIR has_ocr).

Definition set_clients (cs : list Client) (ag : Agent) : Agent :=
  mkAgent (search_results ag) (most_likely_locations ag) cs (ocr_processor ag).

Definition append_result (r : SearchRecord) (ag : Agent) : Agent :=
  mkAgent (search_results ag ++ [r]) (most_likely_locations ag) (api_clients ag)
          (ocr_processor ag).

Definition extend_locations (l : list string) (ag : Agent) : Agent :=
  mkAgent (search_results ag) (most_likely_locations ag ++ l) (api_clients ag)
          (ocr_processor ag).

(** [next((c for c in clients if c.name == n), None)]: the client object is
    shared with the list, so it is returned with its position. *)
Fixpoint find_client (n : string) (clients : list Client) : option (nat * Client) :=
  match clients with
  | [] => None
  | c :: cs =>
      if String.eqb (name c) n then Some (O, c)
      else match find_client n cs with
           | Some (i, c') => Some (S i, c')
           | None => None
           end
  end.

(** The mutated client written back at its position. *)
Fixpoint store_client (i : nat) (c : Client) (clients : list Client) : list Client :=
  match clients, i with
  | [], _ => []
  | _ :: cs, O => c :: cs
  | c0 :: cs, S i' => c0 :: store_client i' c cs
  end.

Definition record_of_item (archive_name : string) (item : Item) : SearchRecord :=
  mkRecord archive_name
           (or_default (i_reference item) "Unknown")
           (or_default (i_title item) "Untitled")
           (or_default (i_date item) "")
           (i_id item)
           (match i_images item with Some l => l | None => [] end).

(** [f"{prefix}{reference} - {title}, {date}"] *)
Definition location_line (prefix : string) (r : SearchRecord) : string :=
  (prefix ++ reference r ++ " - " ++ title r ++ ", " ++ date r)%string.

(** [for item in results.get("results", []): ...]: one line and one record
    appended per item. *)
Fixpoint collect_items (archive_name prefix : string) (items : list Item)
  (lines : list string) (ag : Agent) : list string * Agent :=
  match items with
  | [] => (lines, ag)
  | item :: items' =>
      let r := record_of_item archive_name item in
      collect_items archive_name prefix items'
                    (lines ++ [location_line prefix r]) (append_result r ag)
  end.

Definition search_churchill_archives (query : option string) (ag : Agent)
  (w : World) : list string * Agent * World :=
  match find_client "Churchill Archives Centre" (api_clients ag) with
  | None => ([], ag, w)
  | Some (i, churchill_client) =>
      let query := if truthy query then or_default query "" else "Fairfax correspondence" in
      let search_params :=
        mkParams (Some search_window_start) (Some search_window_end)
                 (Some "CHAR") (Some 50%nat) None in
      let '(res, c', w') := Client.search churchill_client query search_params w in
      let ag1 := set_clients (store_client i c' (api_clients ag)) ag in
      match res with
      | Raise _ => ([], ag1, w')
      | Ret results =>
          match j_error results with
          | Some _ => ([], ag1, w')
          | None =>
              let '(possible_locations, ag2) :=
                collect_items "Churchill Archives Centre" "" (j_results results) [] ag1 in
              (possible_locations, extend_locations possible_locations ag2, w')
          end
      end
  end.

(** [for query in queries: try: ... except Exception: log] on the client
    stored at position [i]. *)
Fixpoint query_loop (archive_name prefix : string) (i : nat)
  (search_params : SearchParams) (queries : list string)
  (potential_sources : list string) (ag : Agent) (w : World)
  : list string * Agent * World :=
  match queries with
  | [] => (potential_sources, ag, w)
  | query :: queries' =>
      match nth_error (api_clients ag) i with
      | None => (potential_sources, ag, w)
      | Some client =>
          let '(res, c', w') := Client.search client query search_params w in
          let ag1 := set_clients (store_client i c' (api_clients ag)) ag in
          match res with
          | Raise _ =>
              query_loop archive_name prefix i search_params queries'
                         potential_sources ag1 w'
          | Ret results =>
              match j_error results with
              | Some _ =>
                  query_loop archive_name prefix i search_params queries'
                             potential_sources ag1 w'
              | None =>
                  let '(sources, ag2) :=
                    collect_items archive_name prefix (j_results results)
                                  potential_sources ag1 in
                  query_loop archive_name prefix i search_params queries'
                             sources ag2 w'
              end
          end
      end
  end.

Definition search_canadian_archives (ag : Agent) (w : World)
  : list string * Agent * World :=
  let lac_client := find_client "Library and Archives Canada" (api_clients ag) in
  let toronto_client := find_client "University of Toronto Archives" (api_clients ag) in
  let '(sources1, ag1, w1) :=
    match lac_client with
    | Some (i, _) =>
        query_loop "Library and Archives Canada" "LAC: " i
          (mkParams (Some search_window_start) (Some search_window_end) None
                    (Some 30%nat) None)
          ["Bryan Charles Fairfax Churchill"; "Colonel Fairfax correspondence";
           "Fairfax Winston Churchill"]
          [] ag w
    | None => ([], ag, w)
    end in
  let '(sources2, ag2, w2) :=
    match toronto_client with
    | Some (i, _) =>
        query_loop "University of Toronto Archives" "UofT: " i
          (mkParams None None (Some "B1994-0002") (Some 30%nat) None)
          ["Fairfax Churchill"; "Bryan Charles Fairfax correspondence";
           "Fairfax Winston"]
          sources1 ag1 w1
    | None => (sources1, ag1, w1)
    end in
  (sources2, extend_locations sources2 ag2, w2).

(** The sort key of [download_documents]. *)
Definition priority_key (x : SearchRecord) : Z :=
  if Str.contains "1946" (date x)
     && any (fun month => Str.contains month (date x)) ["Oct"; "Nov"; "December"]
  then 0%Z else 1%Z.

Definition prioritize (results : list SearchRecord) : list SearchRecord :=
  sorted priority_key results.

(** [for i, url in enumerate(image_urls): ...] *)
Fixpoint download_images (client : Client) (doc_folder : string)
  (urls : list string) (i : nat) (images_downloaded : list string) (w : World)
  : list string * Client * World :=
  match urls with
  | [] => (images_downloaded, client, w)
  | url :: urls' =>
      let output_path :=
        path_join doc_folder ("page_" ++ Str.str_of_nat (i + 1) ++ ".jpg") in
      let '(success, client', w') := download_document_image client url output_path w in
      download_images client' doc_folder urls' (S i)
        (if success then images_downloaded ++ [output_path] else images_downloaded)
        w'
  end.

(** [for result in prioritized_results: ...] *)
Fixpoint download_loop_docs (results : list SearchRecord) (max_docs : Z)
  (download_count : nat) (downloaded_docs : list DownloadedDoc)
  (clients : list Client) (w : World)
  : list DownloadedDoc * list Client * World :=
  match results with
  | [] => (downloaded_docs, clients, w)
  | result :: rest =>
      if (Z.of_nat download_count >=? max_docs)%Z
      then (downloaded_docs, clients, w)
      else
        let archive_name := archive result in
        match find_client archive_name clients with
        | None => download_loop_docs rest max_docs download_count downloaded_docs clients w
        | Some (i, client) =>
            match image_urls result with
            | [] => download_loop_docs rest max_docs download_count downloaded_docs clients w
            | _ :: _ =>
                let doc_ref := Str.replace_char "/" "_" (reference result) in
                let doc_folder :=
                  path_join DOWNLOAD_DIR (archive_name ++ "_" ++ doc_ref) in
                let '(images_downloaded, client', w') :=
                  download_images client doc_folder (image_urls result) 0 [] w in
                let clients' := store_client i client' clients in
                match images_downloaded with
                | [] =>
                    download_loop_docs rest max_docs download_count downloaded_docs
                                       clients' w'
                | _ :: _ =>
                    download_loop_docs rest max_docs (S download_count)
                      (downloaded_docs
                       ++ [mkDoc archive_name (reference result) (title result)
                                 (date result) images_downloaded])
                      clients' w'
                end
            end
        end
  end.

Definition download_documents (max_docs : Z) (ag : Agent) (w : World)
  : list DownloadedDoc * Agent * World :=
  let prioritized_results := prioritize (search_results ag) in
  let '(docs, clients', w') :=
    download_loop_docs prioritized_results max_docs 0 [] (api_clients ag) w in
  (docs, set_clients clients' ag, w').

(** [OCRProcessor.process_image]: any failure of the engine gives [""]. *)
Definition process_image (p : OCRProcessor) (path : string) (w : World) : string :=
  if negb (ocr_available p)
  then "[OCR UNAVAILABLE - INSTALL REQUIRED DEPENDENCIES]"
  else match ocr_engine w path with
       | Some t => t
       | None => ""
       end.

Definition ocr_document (p : OCRProcessor) (doc : DownloadedDoc) (w : World)
  : OcrResult :=
  let all_text := map (fun img_path => process_image p img_path w) (d_images doc) in
  let doc_pages :=
    map (fun img_path => mkPage img_path (process_image p img_path w)) (d_images doc) in
  mkOcr (d_archive doc) (d_reference doc) (d_title doc) (d_date doc) doc_pages
        (match all_text with
         | [] => None
         | _ :: _ =>
             let combined_text := Str.join (String Str.nl (String Str.nl "")) all_text in
             Some (analyze_text combined_text)
         end).

Definition process_ocr (downloaded_docs : list DownloadedDoc) (ag : Agent)
  (w : World) : list OcrResult :=
  map (fun doc => ocr_document (ocr_processor ag) doc w) downloaded_docs.

(** [\d{1,2}\s+\w+\s+19\d{2}] *)
Definition date_line_pattern : Re.regex :=
  Re.RSeq (Re.RRep Re.CDigit 1 2)
    (Re.RSeq (Re.RPlus Re.CSpace)
       (Re.RSeq (Re.RPlus Re.CWord)
          (Re.RSeq (Re.RPlus Re.CSpace)
             (Re.RSeq (Re.lit "19") (Re.RRep Re.CDigit 2 2))))).

Definition empty_content : LetterContent := mkContent None None None None.

Definition with_date (v : string) (c : LetterContent) : LetterContent :=
  mkContent (Some v) (c_salutation c) (c_signature c) (c_body c).

Definition with_salutation (v : string) (c : LetterContent) : LetterContent :=
  mkContent (c_date c) (Some v) (c_signature c) (c_body c).

Definition with_signature (v : string) (c : LetterContent) : LetterContent :=
  mkContent (c_date c) (c_salutation c) (Some v) (c_body c).

Definition with_body (v : string) (c : LetterContent) : LetterContent :=
  mkContent (c_date c) (c_salutation c) (c_signature c) (Some v).

Definition present (o : option string) : nat :=
  match o with Some _ => 1 | None => 0 end.

(** [len(letter_content)]: the number of keys. *)
Definition len (c : LetterContent) : nat :=
  present (c_date c) + present (c_salutation c) + present (c_signature c)
  + present (c_body c).

(** The variables the loop over the lines updates. *)
Record ExtractState : Type := mkState {
  letter_content : LetterContent;
  in_body : bool;
  body_lines : list string
}.

Definition start_state : ExtractState := mkState empty_content false [].

(** One turn of [for line in lines]. *)
Definition line_step (st : ExtractState) (raw : string) : ExtractState :=
  let line := Str.strip raw in
  if Str.is_empty line then st
  else if negb (truthy (c_date (letter_content st)))
          && Re.found false date_line_pattern line
  then mkState (with_date line (letter_content st)) (in_body st) (body_lines st)
  else if negb (truthy (c_salutation (letter_content st)))
          && Str.startswith "Dear" line
  then mkState (with_salutation line (letter_content st)) true (body_lines st)
  else if in_body st && (Str.contains "Sincerely" line || Str.contains "Yours" line)
  then mkState (with_signature line (letter_content st)) false (body_lines st)
  else if in_body st
  then mkState (letter_content st) (in_body st) (body_lines st ++ [line])
  else st.

Definition nl_string : string := String Str.nl EmptyString.

(** ["\n\n".join(page["text"] for page in doc.get("pages", []))] *)
Definition all_text_of (doc : OcrResult) : string :=
  Str.join (nl_string ++ nl_string)%string (map text (pages doc)).

(** The letter fields found in a text: the loop, then the body. *)
Definition extract_fields (all_text : string) : LetterContent :=
  let lines := Str.split_nl all_text in
  let st := fold_left line_step lines start_state in
  match body_lines st with
  | [] => letter_content st
  | _ :: _ => with_body (Str.join nl_string (body_lines st)) (letter_content st)
  end.

(** [for doc in ocr_results: ...] *)
Fixpoint extract_loop (ocr_results : list OcrResult) (potential_letters : list Letter)
  : list Letter :=
  match ocr_results with
  | [] => potential_letters
  | doc :: rest =>
      match analysis doc with
      | None => extract_loop rest potential_letters
      | Some a =>
          if negb (likely_correspondence a) then extract_loop rest potential_letters
          else
            let all_text := all_text_of doc in
            let content := extract_fields all_text in
            if Nat.leb 2 (len content)
            then extract_loop rest
                   (potential_letters
                    ++ [mkLetter (o_archive doc) (o_reference doc) (o_title doc)
                                 (o_date doc) content (relevance_score a) all_text])
            else extract_loop rest potential_letters
      end
  end.

Definition extract_letter_content (ocr_results : list OcrResult) : list Letter :=
  sorted_reverse l_relevance_score (extract_loop ocr_results []).

(** The dict [execute_full_search] returns; a key it leaves out is [None].
    The constant search plan is not modelled. *)
Record Report : Type := mkReport {
  status : string;
  reason : option string;
  r_search_results : option (list SearchRecord);
  potential_letters_found : option nat;
  top_matches : option (list Letter);
  search_results_count : option nat;
  documents_processed : option nat;
  r_most_likely_locations : option (list string)
}.

Definition execute_full_search (ag : Agent) (w : World) : Report * Agent * World :=
  let '(churchill_results, ag1, w1) :=
    search_churchill_archives (Some "Fairfax Winston Churchill correspondence") ag w in
  let '(canadian_results, ag2, w2) := search_canadian_archives ag1 w1 in
  match search_results ag2 with
  | [] =>
      (mkReport "failure" (Some "No search results found") None None None
                None None None,
       ag2, w2)
  | _ :: _ =>
      let '(downloaded_docs, ag3, w3) := download_documents 10 ag2 w2 in
      match downloaded_docs with
      | [] =>
          (mkReport "partial" (Some "No documents could be downloaded")
                    (Some (search_results ag3)) None None None None None,
           ag3, w3)
      | _ :: _ =>
          let ocr_results := process_ocr downloaded_docs ag3 w3 in
          let potential_letters := extract_letter_content ocr_results in
          (mkReport
             (match potential_letters with [] => "partial" | _ :: _ => "success" end)
             None None
             (Some (List.length potential_letters))
             (Some (firstn 3 potential_letters))
             (Some (List.length (search_results ag3)))
             (Some (List.length ocr_results))
             (Some (most_likely_locations ag3)),
           ag3, w3)
      end
  end.

End Agent.

(* ================================================================== *)
(** ** Vocabulary of the properties *)

Module Spec.
Import Py Env Client Scorer Agent.
Local Open Scope string_scope.
Local Open Scope list_scope.

(** Some pattern of the list matches the text, case-insensitively. *)
Definition matches_any (patterns : list Re.regex) (text : string) : bool :=
  existsb (fun p => Re.found true p text) patterns.

Definition churchill_match (text : string) : bool :=
  matches_any churchill_patterns text.

Definition fairfax_match (text : string) : bool :=
  matches_any fairfax_patterns text.

(** The first date of the text: day, month and year as captured. *)
Definition first_date (text : string) : option (list string) :=
  hd_error (Re.findall date_pattern text).

(** Year 1946 and month October, November or December. *)
Definition in_target_window (m : list string) : bool :=
  match m with
  | [_; month; year] =>
      String.eqb year "1946"
      && (String.eqb month "October" || String.eqb month "November"
          || String.eqb month "December")
  | _ => false
  end.

Definition date_bonus (text : string) : Z :=
  match first_date text with
  | Some m => if in_target_window m then 30%Z else 0%Z
  | None => 0%Z
  end.

Definition date_text (m : list string) : string :=
  match m with
  | [d; mo; y] => d ++ " " ++ mo ++ " " ++ y
  | _ => ""
  end.

Definition entity_bonus (b : bool) : Z := if b then 10%Z else 0%Z.

(** A captured year: [19] and two digits [0-9]. *)
Definition year_shape (y : string) : Prop :=
  exists a b, y = String "1" (String "9" (String a (String b "")))
              /\ Str.is_decimal a = true /\ Str.is_decimal b = true.

(** A capture of the date pattern: three groups, the month one of the twelve
    names, the year of the expected shape. *)
Definition date_capture (m : list string) : Prop :=
  exists d mo y, m = [d; mo; y] /\ In mo month_names /\ year_shape y.

(** The condition under which [priority_key] is 0. *)
Definition prioritized (x : SearchRecord) : bool :=
  Str.contains "1946" (date x)
  && (Str.contains "Oct" (date x) || Str.contains "Nov" (date x)
      || Str.contains "December" (date x)).

(** Three records with the dates of the prioritization example. *)
Definition nov_1946 : SearchRecord :=
  mkRecord "Churchill Archives Centre" "CHAR 2/1" "Letter" "3 Nov 1946" None [].
Definition jan_1947 : SearchRecord :=
  mkRecord "Churchill Archives Centre" "CHAR 2/2" "Letter" "1 Jan 1947" None [].
Definition dec_1946 : SearchRecord :=
  mkRecord "Churchill Archives Centre" "CHAR 2/3" "Letter" "20 Dec 1946" None [].

(** Ascending by key. *)
Definition ordered {A : Type} (key : A -> Z) (l : list A) : Prop :=
  StronglySorted (fun x y => (key x <= key y)%Z) l.

(** The elements with a given key, in list order. *)
Definition with_key {A : Type} (key : A -> Z) (k : Z) (l : list A) : list A :=
  filter (fun x => (key x =? k)%Z) l.

Definition is_failed (x : exchange) : bool :=
  match x with Failed _ => true | Answered _ => false end.

(** The events of [k] failed attempts in a row, the first of them being
    attempt number [retries + 1]: a GET, then a sleep of twice the attempt
    number. *)
Fixpoint failed_attempts (url : string) (retries k : nat) : list event :=
  match k with
  | O => []
  | S k' =>
      EvGet url [] :: EvSleep (inject_Z (Z.of_nat (S retries * 2)))
      :: failed_attempts url (S retries) k'
  end.






(** Sample worlds: every exchange fails; only the third exchange succeeds. *)
Definition offline : World :=
  mkWorld 0 (fun _ => (1 # 4)%Q) 0 (fun _ => Failed "unreachable") 0
          (fun _ => None) [].


Definition churchill_client : Client :=
  Client.init [] (mkArchive "Churchill Archives Centre"
                            "https://archives.chu.cam.ac.uk/"
                            [("search", "search"); ("item", "archives/record")]
                            "CHURCHILL_API_KEY" ["CHAR"; "CHUR"]).

(** What any client operation leaves alone in the world. *)
Definition same_oracles (w w' : World) : Prop :=
  lag w' = lag w /\ net w' = net w /\ ocr_engine w' = ocr_engine w.

(** Step 1 of [execute_full_search]: the two searches. *)
Definition search_stage (ag : Agent) (w : World) : Agent * World :=
  let '(_, ag1, w1) :=
    search_churchill_archives (Some "Fairfax Winston Churchill correspondence") ag w in
  let '(_, ag2, w2) := search_canadian_archives ag1 w1 in
  (ag2, w2).

(** The records in [self.search_results] after step 1. *)
Definition records_found (ag : Agent) (w : World) : list SearchRecord :=
  search_results (fst (search_stage ag w)).

(** Step 2 run after step 1: the documents downloaded. *)
Definition download_stage (ag : Agent) (w : World)
  : list DownloadedDoc * Agent * World :=
  let '(ag2, w2) := search_stage ag w in download_documents 10 ag2 w2.

Definition documents_downloaded (ag : Agent) (w : World) : list DownloadedDoc :=
  fst (fst (download_stage ag w)).

(** Steps 3 and 4 run after steps 1 and 2: the letters extracted. *)
Definition letters_extracted (ag : Agent) (w : World) : list Letter :=
  let '(docs, ag3, w3) := download_stage ag w in
  extract_letter_content (process_ocr docs ag3 w3).

(** The letter one document contributes, if any. *)
Definition letter_of (doc : OcrResult) : option Letter :=
  match analysis doc with
  | None => None
  | Some a =>
      if negb (likely_correspondence a) then None
      else
        let content := extract_fields (all_text_of doc) in
        if Nat.leb 2 (len content)
        then Some (mkLetter (o_archive doc) (o_reference doc) (o_title doc)
                            (o_date doc) content (relevance_score a)
                            (all_text_of doc))
        else None
  end.

Definition opt_list {A : Type} (o : option A) : list A :=
  match o with Some x => [x] | None => [] end.

(** The text of the letter example, its five lines joined by newlines. *)
Definition sample_letter : string :=
  "12 November 1946" ++ nl_string ++ "Dear Winston," ++ nl_string
  ++ "It was good to see you." ++ nl_string ++ "Yours sincerely," ++ nl_string
  ++ "Bryan".

(** A letter whose date comes after the salutation. *)
Definition late_date_letter : string :=
  "Dear Sir," ++ nl_string ++ "We met on 3 March 1950 in London." ++ nl_string
  ++ "It was a pleasure." ++ nl_string ++ "Yours truly".

(** A world in which the Churchill archive answers with one record with one
    image, the image downloads and the OCR engine reads the sample letter. *)
Definition helpful : World :=
  mkWorld 0 (fun _ => 0%Q) 0
          (fun n =>
             if Nat.eqb n 0
             then Answered (JsonObject
                    (mkJson None
                       [mkItem (Some "CHAR 2/1") (Some "Fairfax to Churchill")
                               (Some "12 Nov 1946") (Some "id1")
                               (Some ["https://host/scan.jpg"])]))
             else if Nat.eqb n 7 then Answered (NotJson true)
             else Failed "unreachable")
          0 (fun _ => Some sample_letter) [].


(** Every field present holds a non-empty text. *)
Definition populated (c : LetterContent) : Prop :=
  forall v, In (Some v) [c_date c; c_salutation c; c_signature c; c_body c] ->
            v <> "".

(** What the loop over the lines maintains. *)
Definition line_invariant (st : ExtractState) : Prop :=
  populated (letter_content st)
  /\ c_body (letter_content st) = None
  /\ Forall (fun l => l <> "") (body_lines st).

(** A world in which the Churchill archive lists one record but no image can
    be fetched. *)
Definition no_images : World :=
  mkWorld 0 (fun _ => 0%Q) 0
          (fun n =>
             if Nat.eqb n 0
             then Answered (JsonObject
                    (mkJson None
                       [mkItem (Some "CHAR 2/1") None None None
                               (Some ["https://host/scan.jpg"])]))
             else Failed "unreachable")
          0 (fun _ => None) [].


(** How many of the [n] exchanges from number [from] on fail before the first
    one that is answered. *)
Fixpoint leading_failures (net : nat -> exchange) (from n : nat) : nat :=
  match n with
  | O => O
  | S n' =>
      if is_failed (net from) then S (leading_failures net (S from) n') else O
  end.

(** The total length of the sleeps in a list of events. *)
Fixpoint slept (evs : list event) : Q :=
  match evs with
  | [] => 0%Q
  | EvSleep d :: evs' => (d + slept evs')%Q
  | _ :: evs' => slept evs'
  end.

Definition is_get (e : event) : bool :=
  match e with EvGet _ _ => true | _ => false end.



(** The clients of the agent are those of [ARCHIVES], in that order. *)
Definition configured (cs : list Client) : Prop :=
  map name cs = map a_name ARCHIVES
  /\ map endpoints cs = map a_endpoints ARCHIVES.

(** The items a search contributes: those of an answered, decodable response
    without an ["error"] key; none otherwise. *)
Definition usable_items (x : exchange) : list Item :=
  match read_json x with
  | Ret j => match j_error j with None => j_results j | Some _ => [] end
  | Raise _ => []
  end.

(** The items contributed by the [n] exchanges from number [start] on. *)
Definition answers (net : nat -> exchange) (start n : nat) : list Item :=
  flat_map (fun k => usable_items (net k)) (seq start n).

Definition records_of (archive_name : string) (items : list Item)
  : list SearchRecord :=
  map (record_of_item archive_name) items.

Definition locations_of (prefix archive_name : string) (items : list Item)
  : list string :=
  map (fun item => location_line prefix (record_of_item archive_name item)) items.

(** [l1] is [l2] with some elements left out, the order kept. *)
Inductive subseq {A : Type} : list A -> list A -> Prop :=
| subseq_nil : subseq [] []
| subseq_skip x l1 l2 : subseq l1 l2 -> subseq l1 (x :: l2)
| subseq_take x l1 l2 : subseq l1 l2 -> subseq (x :: l1) (x :: l2).

(** The path of the [i]-th image (counting from 0) of a document folder. *)
Definition page_path (folder : string) (i : nat) : string :=
  path_join folder ("page_" ++ Str.str_of_nat (i + 1) ++ ".jpg").

(** The folder [download_documents] gives a record. *)
Definition doc_folder_of (r : SearchRecord) : string :=
  path_join DOWNLOAD_DIR
            (archive r ++ "_" ++ Str.replace_char "/" "_" (reference r)).

(** One path per image URL of the record, in order. *)
Definition page_paths (r : SearchRecord) : list string :=
  map (page_path (doc_folder_of r)) (seq 0 (List.length (image_urls r))).

(** The downloaded document [d] was made from the record [r]. *)
Definition comes_from (d : DownloadedDoc) (r : SearchRecord) : Prop :=
  d_archive d = archive r /\ d_reference d = reference r
  /\ d_title d = title r /\ d_date d = date r
  /\ d_images d <> [] /\ subseq (d_images d) (page_paths r).




(** Each field present passes the test that recorded it, and signature and
    body come only with a salutation. *)
Definition fields_valid (c : LetterContent) : Prop :=
  (forall v, c_date c = Some v -> Re.found false date_line_pattern v = true)
  /\ (forall v, c_salutation c = Some v -> Str.startswith "Dear" v = true)
  /\ (forall v, c_signature c = Some v ->
                Str.contains "Sincerely" v || Str.contains "Yours" v = true)
  /\ (c_signature c <> None -> c_salutation c <> None)
  /\ (c_body c <> None -> c_salutation c <> None).

Definition state_valid (st : ExtractState) : Prop :=
  fields_valid (letter_content st)
  /\ (in_body st = true -> c_salutation (letter_content st) <> None)
  /\ (body_lines st <> [] -> c_salutation (letter_content st) <> None).

(** The test of the date branch on a stripped line. *)
Definition is_date_line (l : string) : bool :=
  negb (Str.is_empty l) && Re.found false date_line_pattern l.

(** The lines of a text as the loop sees them. *)
Definition stripped_lines (t : string) : list string :=
  map Str.strip (Str.split_nl t).

(** Letters in the order of their documents, before the final sort. *)
Definition candidates (ocr_results : list OcrResult) : list Letter :=
  flat_map (fun d => opt_list (letter_of d)) ocr_results.

(** [a] does not score lower than [b]. *)
Definition score_desc (a b : Letter) : Prop :=
  (l_relevance_score b <= l_relevance_score a)%Z.

(** A captured day: one or two decimal digits. *)
Definition day_shape (d : string) : Prop :=
  (1 <= String.length d <= 2)%nat
  /\ forall a, In a (list_ascii_of_string d) -> Str.is_decimal a = true.

End Spec.

(* ================================================================== *)
(** ** Facts about strings and the matcher *)

Local Open Scope nat_scope.

Section MatcherFacts.
Import Re.

Lemma rmatch_seq_in ic r1 r2 prev s c s' g :
  In (c, s', g) (rmatch ic (RSeq r1 r2) prev s) ->
  exists c1 s1 g1 c2 g2,
    In (c1, s1, g1) (rmatch ic r1 prev s)
    /\ In (c2, s', g2) (rmatch ic r2 (last_char c1 prev) s1)
    /\ c = (c1 ++ c2)%string /\ g = g1 ++ g2.
Proof.
  simpl. intros H. apply in_flat_map in H.
  destruct H as [[[c1 s1] g1] [H1 H2]].
  apply in_map_iff in H2. destruct H2 as [[[c2 s2] g2] [E H2]].
  inversion E; subst. exists c1, s1, g1, c2, g2. auto.
Qed.

Lemma rmatch_group_in ic r prev s c s' g :
  In (c, s', g) (rmatch ic (RGroup r) prev s) ->
  exists g', g = c :: g' /\ In (c, s', g') (rmatch ic r prev s).
Proof.
  simpl. intros H. apply in_map_iff in H.
  destruct H as [[[c0 s0] g0] [E H]]. inversion E; subst. eauto.
Qed.

Lemma rmatch_alt_in ic r1 r2 prev s x :
  In x (rmatch ic (RAlt r1 r2) prev s) ->
  In x (rmatch ic r1 prev s) \/ In x (rmatch ic r2 prev s).
Proof. simpl. apply in_app_or. Qed.

Lemma rmatch_char_in ic a prev s c s' g :
  In (c, s', g) (rmatch ic (RChar a) prev s) ->
  exists b, c = String b EmptyString /\ s = String b s' /\ g = []
            /\ chr_eq ic a b = true.
Proof.
  simpl. destruct s as [|b s0]; [intros []|].
  destruct (chr_eq ic a b) eqn:E; [|intros []].
  intros [H|[]]. inversion H; subst. eauto.
Qed.

(** What a bounded repetition consumes. *)
Lemma rep_class_in cl hi : forall lo s u v,
  In (u, v) (rep_class cl lo hi s) ->
  s = (u ++ v)%string /\ lo <= String.length u <= hi
  /\ (forall a, In a (list_ascii_of_string u) -> in_class cl a = true).
Proof.
  induction hi as [|hi IH]; intros lo s u v H; simpl in H.
  - destruct (Nat.eqb lo 0) eqn:E; [|destruct H].
    destruct H as [H|[]]. inversion H; subst. apply Nat.eqb_eq in E.
    simpl. repeat split; try lia; try (intros ? []).
  - apply in_app_or in H. destruct H as [H|H].
    + destruct s as [|a s0]; [destruct H|].
      destruct (in_class cl a) eqn:Ea; [|destruct H].
      apply in_map_iff in H. destruct H as [[u0 v0] [E H]].
      inversion E; subst. apply IH in H. destruct H as (-> & Hl & Hc).
      simpl. repeat split; try lia.
      try (intros b [<-|Hb]; auto).
    + destruct (Nat.eqb lo 0) eqn:E; [|destruct H].
      destruct H as [H|[]]. inversion H; subst. apply Nat.eqb_eq in E.
      simpl. repeat split; try lia; try (intros ? []).
Qed.

Lemma rmatch_rep_in ic cl lo hi prev s c s' g :
  In (c, s', g) (rmatch ic (RRep cl lo hi) prev s) ->
  g = [] /\ In (c, s') (rep_class cl lo hi s).
Proof.
  simpl. intros H. apply in_map_iff in H.
  destruct H as [[u v] [E H]]. inversion E; subst. auto.
Qed.

Lemma rmatch_plus_in ic cl prev s c s' g :
  In (c, s', g) (rmatch ic (RPlus cl) prev s) -> g = [].
Proof.
  simpl. intros H. apply in_map_iff in H.
  destruct H as [[u v] [E H]]. inversion E; subst. auto.
Qed.

(** A literal word, matched case-sensitively, consumes itself. *)
Lemma rmatch_lit_in w : forall prev s c s' g,
  In (c, s', g) (rmatch false (lit w) prev s) -> c = w /\ g = [].
Proof.
  induction w as [|a w IH]; intros prev s c s' g H.
  - simpl in H. destruct H as [H|[]]. inversion H; auto.
  - destruct w as [|b w'].
    + apply rmatch_char_in in H. destruct H as (x & -> & _ & -> & E).
      simpl in E. apply Ascii.eqb_eq in E. subst. auto.
    + change (lit (String a (String b w')))
        with (RSeq (RChar a) (lit (String b w'))) in H.
      apply rmatch_seq_in in H.
      destruct H as (c1 & s1 & g1 & c2 & g2 & H1 & H2 & -> & ->).
      apply rmatch_char_in in H1. destruct H1 as (x & -> & _ & -> & E).
      simpl in E. apply Ascii.eqb_eq in E. subst x.
      apply IH in H2. destruct H2 as [-> ->]. auto.
Qed.

Lemma rmatch_alt_lits_in ws : forall prev s c s' g,
  ws <> [] ->
  In (c, s', g) (rmatch false (alt_lits ws) prev s) -> In c ws /\ g = [].
Proof.
  induction ws as [|w ws IH]; intros prev s c s' g Hne H; [congruence|].
  destruct ws as [|w' ws'].
  - apply rmatch_lit_in in H. destruct H as [-> ->]. simpl; auto.
  - change (alt_lits (w :: w' :: ws'))
      with (RAlt (lit w) (alt_lits (w' :: ws'))) in H.
    apply rmatch_alt_in in H. destruct H as [H|H].
    + apply rmatch_lit_in in H. destruct H as [-> ->]. simpl; auto.
    + apply IH in H; [|discriminate]. destruct H as [H ->]. simpl in *; auto.
Qed.

(** Every element of [findall] comes from a match at some position. *)
Lemma findall_from_in ic r : forall s prev skip m,
  In m (findall_from ic r prev s skip) ->
  exists prev' s0 c rest, In (c, rest, m) (rmatch ic r prev' s0).
Proof.
  induction s as [|a s IH]; intros prev skip m H.
  - destruct skip; simpl in H; [|destruct H].
    destruct (rmatch ic r prev EmptyString) as [|[[c rest] g] tl] eqn:E;
      [destruct H|].
    destruct H as [<-|[]]. exists prev, EmptyString, c, rest.
    rewrite E. left; reflexivity.
  - destruct skip; simpl in H; [|eapply IH; eauto].
    destruct (rmatch ic r prev (String a s)) as [|[[c rest] g] tl] eqn:E.
    + eapply IH; eauto.
    + destruct H as [<-|H]; [|eapply IH; eauto].
      exists prev, (String a s), c, rest. rewrite E. left; reflexivity.
Qed.

(** The first element of [findall] is the first match of [search]. *)
Lemma findall_head_search r text :
  hd_error (findall r text)
  = option_map (fun '(_, _, g) => g) (search false r text).
Proof.
  unfold findall, search. generalize (@None ascii) as prev.
  induction text as [|a s IH]; intros prev; simpl.
  - destruct (rmatch false r prev EmptyString) as [|[[c rest] g] tl]; reflexivity.
  - destruct (rmatch false r prev (String a s)) as [|[[c rest] g] tl];
      [apply IH | reflexivity].
Qed.

End MatcherFacts.

(* ================================================================== *)
(** ** Facts about [analyze_text] *)

Section ScorerFacts.
Import Re Scorer Spec.

Lemma decimal_bounds a :
  Str.is_decimal a = true -> (48 <= Str.code a <= 57)%N.
Proof.
  unfold Str.is_decimal, Str.between. intros H.
  apply andb_true_iff in H. destruct H as [H1 H2].
  apply N.leb_le in H1, H2. lia.
Qed.

Lemma decimal_not_space a : Str.is_decimal a = true -> Str.is_space a = false.
Proof.
  intros H. apply decimal_bounds in H.
  unfold Str.is_space, Str.between, Str.is_code.
  repeat (apply orb_false_iff; split);
    try (apply andb_false_iff; rewrite !N.leb_gt; lia);
    apply N.eqb_neq; lia.
Qed.

(** Whatever the date pattern matches has the three expected groups. *)
Lemma date_pattern_capture prev s c rest g :
  In (c, rest, g) (rmatch false date_pattern prev s) -> date_capture g.
Proof.
  unfold date_pattern. intros H.
  apply rmatch_seq_in in H as (c1 & s1 & g1 & c2 & g2 & H1 & H2 & -> & ->).
  apply rmatch_group_in in H1 as (g1' & -> & H1).
  apply rmatch_rep_in in H1 as [-> _].
  apply rmatch_seq_in in H2 as (c3 & s3 & g3 & c4 & g4 & H3 & H4 & -> & ->).
  apply rmatch_plus_in in H3 as ->.
  apply rmatch_seq_in in H4 as (c5 & s5 & g5 & c6 & g6 & H5 & H6 & -> & ->).
  apply rmatch_group_in in H5 as (g5' & -> & H5).
  apply rmatch_alt_lits_in in H5 as [Hmo ->]; [|discriminate].
  apply rmatch_seq_in in H6 as (c7 & s7 & g7 & c8 & g8 & H7 & H8 & -> & ->).
  apply rmatch_plus_in in H7 as ->.
  apply rmatch_group_in in H8 as (g8' & -> & H8).
  apply rmatch_seq_in in H8 as (c9 & s9 & g9 & c10 & g10 & H9 & H10 & -> & ->).
  apply rmatch_lit_in in H9 as [-> ->].
  apply rmatch_rep_in in H10 as [-> H10].
  apply rep_class_in in H10 as (_ & Hlen & Hcl).
  destruct c10 as [|a [|b [|x c10]]]; simpl in Hlen; try lia.
  exists c1, c5, (String "1" (String "9" (String a (String b EmptyString)))).
  split; [reflexivity|]. split; [exact Hmo|].
  exists a, b. split; [reflexivity|].
  split; [apply (Hcl a) | apply (Hcl b)]; simpl; auto.
Qed.

Lemma findall_date_capture text m :
  In m (findall date_pattern text) -> date_capture m.
Proof.
  intros H. apply findall_from_in in H as (prev & s0 & c & rest & H).
  eapply date_pattern_capture; eauto.
Qed.

(** [int] never fails on a captured year, and gives 1946 only for "1946". *)
Lemma int_year y :
  year_shape y ->
  exists n, Str.int y = Some n /\ ((n =? 1946)%Z = String.eqb y "1946").
Proof.
  intros (a & b & -> & Ha & Hb).
  pose proof (decimal_not_space _ Ha) as Sa.
  pose proof (decimal_not_space _ Hb) as Sb.
  pose proof (decimal_bounds _ Ha) as Ba.
  pose proof (decimal_bounds _ Hb) as Bb.
  assert (E : Str.int (String "1" (String "9" (String a (String b EmptyString))))
              = Some (1900 + 10 * Z.of_N (Str.code a - 48)
                      + Z.of_N (Str.code b - 48))%Z).
  { unfold Str.int, Str.strip.
    change (Str.lstrip (String "1" (String "9" (String a (String b EmptyString)))))
      with (String "1" (String "9" (String a (String b EmptyString)))).
    cbn [Str.rstrip Str.is_empty andb]. rewrite Sb. cbn [Str.is_empty andb].
    cbn [Str.digits_value].
    change (Str.is_decimal "1") with true. change (Str.is_decimal "9") with true.
    cbn iota. rewrite Ha, Hb.
    f_equal. change (Str.code "1" - 48)%N with 1%N.
    change (Str.code "9" - 48)%N with 9%N. lia. }
  eexists. split; [exact E|].
  destruct (String.eqb_spec
              (String "1" (String "9" (String a (String b EmptyString)))) "1946")
    as [Heq|Hne].
  - inversion Heq; subst. reflexivity.
  - apply Z.eqb_neq. intros Hn. apply Hne.
    assert (Ea : Str.code a = 52%N) by lia.
    assert (Eb : Str.code b = 54%N) by lia.
    unfold Str.code in Ea, Eb.
    rewrite <- (ascii_N_embedding a), <- (ascii_N_embedding b), Ea, Eb.
    reflexivity.
Qed.

(** The month test of the code singles out October to December. *)
Lemma month_window mo :
  (dict_get month_mapping mo 0 >=? 10)%Z
  = (String.eqb mo "October" || String.eqb mo "November"
     || String.eqb mo "December")%bool.
Proof.
  unfold month_mapping, dict_get.
  repeat match goal with
         | |- context [String.eqb mo ?k] =>
             destruct (String.eqb_spec mo k); [subst; reflexivity|]
         end.
  reflexivity.
Qed.

(** On a capture the [try] body runs to its end. *)
Lemma date_block_capture m a :
  date_capture m ->
  date_block m a
  = (mkAnalysis (likely_correspondence a) (mentions_churchill a)
                (mentions_fairfax a) (Some (date_text m))
                (relevance_score a + (if in_target_window m then 30 else 0))%Z,
     None).
Proof.
  intros (d & mo & y & -> & _ & Hy).
  destruct (int_year y Hy) as (n & Hn & Hw).
  unfold date_block. rewrite Hn, Hw, month_window.
  unfold in_target_window, date_text.
  destruct (String.eqb y "1946" && _)%bool; simpl.
  - reflexivity.
  - rewrite Z.add_0_r. destruct a; reflexivity.
Qed.

Lemma mention_loop_eq mark ps text a :
  mention_loop mark ps text a
  = if matches_any ps text then add_score 10 (mark a) else a.
Proof.
  unfold matches_any. induction ps as [|p ps IH]; simpl; [reflexivity|].
  destruct (found true p text); simpl; auto.
Qed.

Lemma date_step_eq text a :
  date_step text a
  = mkAnalysis (likely_correspondence a) (mentions_churchill a)
               (mentions_fairfax a)
               (match first_date text with
                | Some m => Some (date_text m)
                | None => date_found a
                end)
               (relevance_score a + date_bonus text)%Z.
Proof.
  unfold date_step, date_bonus, first_date.
  destruct (findall date_pattern text) as [|m tl] eqn:E; simpl.
  - rewrite Z.add_0_r. destruct a; reflexivity.
  - rewrite date_block_capture; [reflexivity|].
    apply (findall_date_capture text). rewrite E. left; reflexivity.
Qed.

(** [analyze_text] in closed form. *)
Lemma analyze_text_eq text :
  analyze_text text
  = let mc := churchill_match text in
    let mf := fairfax_match text in
    let score := (entity_bonus mc + entity_bonus mf + date_bonus text)%Z in
    mkAnalysis (mc && mf && (score >=? 20)%Z) mc mf
               (option_map date_text (first_date text)) score.
Proof.
  unfold analyze_text. rewrite !mention_loop_eq, date_step_eq.
  fold (churchill_match text). fold (fairfax_match text).
  unfold verdict_step, date_bonus, entity_bonus.
  destruct (churchill_match text), (fairfax_match text),
    (first_date text) as [m|]; simpl;
    try destruct (in_target_window m); reflexivity.
Qed.

Lemma date_bonus_range text : (date_bonus text = 0 \/ date_bonus text = 30)%Z.
Proof.
  unfold date_bonus. destruct (first_date text) as [m|]; auto.
  destruct (in_target_window m); auto.
Qed.

(** The patterns on a few texts: word boundaries, case, runs of spaces. *)
Example pattern_samples :
  map churchill_match
      ["Mr Churchill"; "churchills"; "WINSTON,"; "the Prime   Minister";
       "prime_minister"; "primeminister"]%string
  = [true; false; true; true; false; false]
  /\ map fairfax_match ["Col. Fairfax"; "bryant"; "colonel!"; "Fair fax"]%string
     = [true; false; true; false]
  /\ findall date_pattern "112 May 1946, 3 january 1946, 4 June 19475"%string
     = [["12"; "May"; "1946"]; ["4"; "June"; "1947"]]%string.
Proof. repeat split; vm_compute; reflexivity. Qed.

End ScorerFacts.

(* ================================================================== *)
(** ** Properties of the relevance scorer *)

Section ScorerProperties.
Import Re Scorer Spec.
Local Open Scope string_scope.
Local Open Scope Z_scope.

(** C1. [analyze_text] sets [likely_correspondence] exactly when a
    Churchill pattern and a Fairfax pattern both match the text
    (case-insensitively) and the score is at least 20; and whenever both
    match, the score is at least 20 and the verdict is true. *)
Theorem likely_correspondence_iff_both_entities (text : string) :
  (likely_correspondence (analyze_text text) = true <->
   churchill_match text = true /\ fairfax_match text = true
   /\ 20 <= relevance_score (analyze_text text))
  /\ (churchill_match text = true -> fairfax_match text = true ->
      20 <= relevance_score (analyze_text text)
      /\ likely_correspondence (analyze_text text) = true).
Proof.
  rewrite analyze_text_eq. cbn zeta. cbn [likely_correspondence relevance_score].
  pose proof (date_bonus_range text) as Hd.
  assert (Hs : churchill_match text = true -> fairfax_match text = true ->
               20 <= entity_bonus (churchill_match text)
                     + entity_bonus (fairfax_match text) + date_bonus text).
  { intros -> ->. unfold entity_bonus. lia. }
  rewrite !andb_true_iff, Z.geb_le. split.
  - tauto.
  - intros H1 H2. specialize (Hs H1 H2). tauto.
Qed.

Lemma likely_correspondence_witness :
  churchill_match "Dear Winston, yours, Colonel Fairfax" = true
  /\ fairfax_match "Dear Winston, yours, Colonel Fairfax" = true
  /\ 20 <= relevance_score (analyze_text "Dear Winston, yours, Colonel Fairfax")
  /\ likely_correspondence (analyze_text "Dear Winston, yours, Colonel Fairfax") = true.
Proof.
  split; [reflexivity|]. split; [reflexivity|].
  apply (proj2 (likely_correspondence_iff_both_entities
                  "Dear Winston, yours, Colonel Fairfax")); reflexivity.
Defined.

(** C9. The score is the sum of one bonus of 10 when some Churchill pattern
    matches, one bonus of 10 when some Fairfax pattern matches (however many
    patterns of the entity match), and a date bonus that is 0 or 30; it lies
    between 0 and 50, and a true verdict implies a score of at least 20. *)
Theorem relevance_score_bounds (text : string) :
  let a := analyze_text text in
  relevance_score a
  = entity_bonus (mentions_churchill a) + entity_bonus (mentions_fairfax a)
    + date_bonus text
  /\ mentions_churchill a = churchill_match text
  /\ mentions_fairfax a = fairfax_match text
  /\ (date_bonus text = 0 \/ date_bonus text = 30)
  /\ 0 <= relevance_score a <= 50
  /\ (likely_correspondence a = true -> 20 <= relevance_score a)
  /\ relevance_score
       (analyze_text "Winston Churchill, Prime Minister, wrote to Colonel Bryan Fairfax")
     = 20.
Proof.
  cbn zeta. rewrite analyze_text_eq. cbn zeta.
  cbn [likely_correspondence relevance_score mentions_churchill mentions_fairfax].
  pose proof (date_bonus_range text) as Hd.
  split; [reflexivity|]. split; [reflexivity|]. split; [reflexivity|].
  split; [exact Hd|].
  split; [unfold entity_bonus;
          destruct (churchill_match text), (fairfax_match text); lia|].
  split; [|reflexivity].
  intros H. apply andb_true_iff in H. destruct H as [_ H].
  apply Z.geb_le in H. exact H.
Qed.

Lemma relevance_score_bounds_witness :
  likely_correspondence (analyze_text "Bryan wrote to Winston on 3 May 1946") = true
  /\ 20 <= relevance_score (analyze_text "Bryan wrote to Winston on 3 May 1946").
Proof.
  split; [reflexivity|].
  apply (relevance_score_bounds "Bryan wrote to Winston on 3 May 1946").
  reflexivity.
Defined.

Lemma in_target_window_iff m :
  date_capture m ->
  (in_target_window m = true <->
   exists d mo, m = [d; mo; "1946"]
                /\ (mo = "October" \/ mo = "November" \/ mo = "December")).
Proof.
  intros (d & mo & y & -> & _ & _). unfold in_target_window. split.
  - intros H. apply andb_true_iff in H. destruct H as [Hy Hm].
    apply String.eqb_eq in Hy. subst y. exists d, mo. split; [reflexivity|].
    apply orb_true_iff in Hm. destruct Hm as [Hm|Hm].
    + apply orb_true_iff in Hm.
      destruct Hm as [Hm|Hm]; apply String.eqb_eq in Hm; auto.
    + apply String.eqb_eq in Hm; auto.
  - intros (d' & mo' & E & Hm). inversion E; subst.
    destruct Hm as [-> | [-> | ->]]; reflexivity.
Qed.

Lemma first_date_capture text m : first_date text = Some m -> date_capture m.
Proof.
  unfold first_date. intros H. apply (findall_date_capture text).
  destruct (findall date_pattern text); inversion H; subst. left; reflexivity.
Qed.

(** The first date of a text that begins with a date, whatever follows. *)
Ltac first_date_of_prefix :=
  unfold date_bonus, first_date; rewrite findall_head_search;
  unfold search; vm_compute; reflexivity.

(** C3. Only the first date match counts: the recorded date and the date
    bonus are functions of the first match of the date pattern, which is the
    leftmost one.  The bonus is 30 exactly when that first match has year 1946
    and month October, November or December, and 0 otherwise.  A text that
    begins with "15 November 1946" gets the bonus; one that begins with
    "15 November 1945" or "15 March 1946" does not.  The conversion of the
    captured year never fails, so the handler is never entered; without a
    match no date is recorded and no bonus is added. *)
Theorem date_bonus_first_match_only (text : string) :
  let a := analyze_text text in
  date_found a = option_map date_text (first_date text)
  /\ relevance_score a
     = entity_bonus (churchill_match text) + entity_bonus (fairfax_match text)
       + date_bonus text
  /\ first_date text
     = option_map (fun '(_, _, g) => g) (search false date_pattern text)
  /\ (date_bonus text = 30 <->
      exists d mo, first_date text = Some [d; mo; "1946"]
                   /\ (mo = "October" \/ mo = "November" \/ mo = "December"))
  /\ (date_bonus text <> 30 -> date_bonus text = 0)
  /\ (forall m a0, first_date text = Some m -> snd (date_block m a0) = None)
  /\ (first_date text = None -> date_found a = None /\ date_bonus text = 0)
  /\ (forall post, date_bonus ("15 November 1946" ++ post) = 30)
  /\ (forall post, date_bonus ("15 November 1945" ++ post) = 0)
  /\ (forall post, date_bonus ("15 March 1946" ++ post) = 0)
  /\ analyze_text "Sent 1 March 1946, received 15 November 1946"
     = mkAnalysis false false false (Some "1 March 1946") 0.
Proof.
  cbn zeta. rewrite analyze_text_eq. cbn zeta. cbn [date_found relevance_score].
  split; [reflexivity|]. split; [reflexivity|].
  split; [apply findall_head_search|].
  split.
  { unfold date_bonus. destruct (first_date text) as [m|] eqn:E.
    - pose proof (in_target_window_iff m (first_date_capture _ _ E)) as Hw.
      destruct (in_target_window m).
      + split; [intros _|reflexivity].
        destruct (proj1 Hw eq_refl) as (d & mo & -> & Hm). eauto.
      + split; [discriminate|].
        intros (d & mo & Em & Hm). inversion Em; subst.
        assert (false = true) by (apply Hw; eauto). discriminate.
    - split; [discriminate|]. intros (d & mo & Em & _). discriminate. }
  split; [pose proof (date_bonus_range text); lia|].
  split.
  { intros m a0 E. rewrite date_block_capture; [reflexivity|].
    eapply first_date_capture; eauto. }
  split.
  { intros E. unfold date_bonus. rewrite E. split; reflexivity. }
  split.
  { intros post. first_date_of_prefix. }
  split.
  { intros post. first_date_of_prefix. }
  split.
  { intros post. first_date_of_prefix. }
  reflexivity.
Qed.

Lemma date_bonus_first_match_only_witness :
  first_date "On 15 November 1946 Colonel Fairfax wrote"
  = Some ["15"; "November"; "1946"]
  /\ date_bonus "On 15 November 1946 Colonel Fairfax wrote" = 30
  /\ relevance_score (analyze_text "On 15 November 1946 Colonel Fairfax wrote") = 40.
Proof.
  split; [reflexivity|]. split.
  - apply (date_bonus_first_match_only "On 15 November 1946 Colonel Fairfax wrote").
    exists "15", "November". split; [reflexivity|]. right; left; reflexivity.
  - reflexivity.
Defined.

End ScorerProperties.

(* ================================================================== *)
(** ** [sorted] is the stable sort *)

Section SortFacts.
Import Py Spec.
Context {A : Type} (key : A -> Z).

Lemma insert_by_perm x l : Permutation (insert_by key x l) (x :: l).
Proof.
  induction l as [|y l IH]; simpl; [reflexivity|].
  destruct (key x <=? key y)%Z; [reflexivity|].
  rewrite IH. apply perm_swap.
Qed.

Lemma sorted_perm l : Permutation (sorted key l) l.
Proof.
  induction l as [|x l IH]; simpl; [reflexivity|].
  change (fold_right (insert_by key) [] l) with (sorted key l).
  rewrite insert_by_perm. apply perm_skip, IH.
Qed.

Lemma insert_by_ordered x l : ordered key l -> ordered key (insert_by key x l).
Proof.
  unfold ordered. induction l as [|y l IH]; intros H; simpl.
  - constructor; constructor.
  - inversion H as [|? ? Hl Hy]; subst.
    destruct (Z.leb_spec (key x) (key y)).
    + constructor; [exact H|]. constructor; [assumption|].
      eapply Forall_impl; [|exact Hy]. simpl. intros; lia.
    + constructor; [apply IH; assumption|].
      eapply Permutation_Forall; [symmetry; apply insert_by_perm|].
      constructor; [lia | exact Hy].
Qed.

Lemma sorted_ordered l : ordered key (sorted key l).
Proof.
  induction l as [|x l IH]; simpl; [constructor|].
  apply insert_by_ordered, IH.
Qed.

Lemma with_key_insert_by k x l :
  with_key key k (insert_by key x l)
  = if (key x =? k)%Z then x :: with_key key k l else with_key key k l.
Proof.
  unfold with_key. induction l as [|y l IH]; simpl; [reflexivity|].
  destruct (Z.leb_spec (key x) (key y)); simpl; [reflexivity|].
  rewrite IH.
  destruct (Z.eqb_spec (key x) k), (Z.eqb_spec (key y) k); try reflexivity; lia.
Qed.

(** Stability: records of equal key keep their input order. *)
Lemma sorted_stable k l : with_key key k (sorted key l) = with_key key k l.
Proof.
  induction l as [|x l IH]; simpl; [reflexivity|].
  change (fold_right (insert_by key) [] l) with (sorted key l).
  rewrite with_key_insert_by, IH. unfold with_key at 3. simpl.
  destruct (key x =? k)%Z; reflexivity.
Qed.

(** An ordered list with keys 0 and 1 is its 0-part followed by its 1-part. *)
Lemma ordered_two_keys l :
  (forall x, key x = 0 \/ key x = 1)%Z -> ordered key l ->
  l = with_key key 0 l ++ with_key key 1 l.
Proof.
  intros Hk. unfold ordered, with_key.
  induction l as [|x l IH]; intros H; simpl; [reflexivity|].
  inversion H as [|? ? Hl Hx]; subst. specialize (IH Hl).
  destruct (Hk x) as [E|E]; rewrite E; simpl.
  - f_equal. exact IH.
  - assert (H0 : filter (fun y => (key y =? 0)%Z) l = []).
    { clear IH Hl H. induction l as [|y l IHl]; simpl; [reflexivity|].
      inversion Hx; subst. destruct (Z.eqb_spec (key y) 0); [lia|]. auto. }
    assert (H1 : filter (fun y => (key y =? 1)%Z) l = l).
    { clear IH Hl H H0. induction l as [|y l IHl]; simpl; [reflexivity|].
      inversion Hx; subst.
      destruct (Z.eqb_spec (key y) 1); [f_equal; auto|].
      destruct (Hk y); lia. }
    rewrite H0, H1. reflexivity.
Qed.

Lemma sorted_two_keys l :
  (forall x, key x = 0 \/ key x = 1)%Z ->
  sorted key l = with_key key 0 l ++ with_key key 1 l.
Proof.
  intros Hk. rewrite (ordered_two_keys (sorted key l) Hk (sorted_ordered l)).
  rewrite !sorted_stable. reflexivity.
Qed.

End SortFacts.

(* ================================================================== *)
(** ** Prioritization in [download_documents] *)

Section PrioritizationProperties.
Import Py Env Client Agent Spec.
Local Open Scope string_scope.
Local Open Scope list_scope.

Lemma priority_key_prioritized x :
  priority_key x = if prioritized x then 0%Z else 1%Z.
Proof.
  unfold priority_key, prioritized, any. simpl. rewrite orb_false_r, orb_assoc.
  reflexivity.
Qed.

Lemma prioritize_partition results :
  prioritize results
  = filter prioritized results ++ filter (fun x => negb (prioritized x)) results.
Proof.
  unfold prioritize. rewrite sorted_two_keys.
  - unfold with_key. f_equal; apply filter_ext; intros x;
      rewrite priority_key_prioritized; destruct (prioritized x); reflexivity.
  - intros x. rewrite priority_key_prioritized. destruct (prioritized x); auto.
Qed.

(** C2, the claim's example refuted: of the three dates only "3 Nov 1946"
    matches, because "20 Dec 1946" does not contain "December"; the 1947
    record therefore stays ahead of the "20 Dec 1946" record. *)
Lemma prioritize_example_keeps_order :
  map date (prioritize [nov_1946; jan_1947; dec_1946])
  = ["3 Nov 1946"; "1 Jan 1947"; "20 Dec 1946"]
  /\ map date (prioritize [nov_1946; jan_1947; dec_1946])
     <> ["3 Nov 1946"; "20 Dec 1946"; "1 Jan 1947"].
Proof. split; [reflexivity | discriminate]. Qed.

(** C2, amended.  [download_documents] walks the records in the order of a
    stable sort that puts every record whose date contains "1946" and one of
    "Oct", "Nov", "December" ahead of all others, each part in accumulation
    order.  For records dated "3 Nov 1946", "1 Jan 1947", "20 Dec 1946" only
    the first matches, and the order is unchanged. *)
Theorem prioritize_stable_partition (results : list SearchRecord)
  (r1 r2 r3 : SearchRecord) :
  date r1 = "3 Nov 1946" -> date r2 = "1 Jan 1947" -> date r3 = "20 Dec 1946" ->
  prioritize results
  = filter prioritized results ++ filter (fun x => negb (prioritized x)) results
  /\ (forall max_docs ag w,
        download_documents max_docs ag w
        = let '(docs, clients', w') :=
            download_loop_docs (prioritize (search_results ag)) max_docs 0 []
                               (api_clients ag) w in
          (docs, set_clients clients' ag, w'))
  /\ prioritized r1 = true /\ prioritized r2 = false /\ prioritized r3 = false
  /\ prioritize [r1; r2; r3] = [r1; r2; r3].
Proof.
  intros H1 H2 H3.
  split; [apply prioritize_partition|]. split; [reflexivity|].
  assert (P1 : prioritized r1 = true) by (unfold prioritized; rewrite H1; reflexivity).
  assert (P2 : prioritized r2 = false) by (unfold prioritized; rewrite H2; reflexivity).
  assert (P3 : prioritized r3 = false) by (unfold prioritized; rewrite H3; reflexivity).
  repeat (split; [assumption|]).
  rewrite prioritize_partition. simpl. rewrite P1, P2, P3. reflexivity.
Qed.

Lemma prioritize_stable_partition_witness :
  prioritize [nov_1946; jan_1947; dec_1946] = [nov_1946; jan_1947; dec_1946].
Proof.
  apply (prioritize_stable_partition [] nov_1946 jan_1947 dec_1946);
    reflexivity.
Defined.

End PrioritizationProperties.

(* ================================================================== *)
(** ** Properties of the archive client *)

Section ClientProperties.
Import Py Env Client Agent Spec.
Local Open Scope string_scope.
Local Open Scope list_scope.

Lemma same_oracles_refl w : same_oracles w w.
Proof. repeat split. Qed.

Lemma same_oracles_trans w1 w2 w3 :
  same_oracles w1 w2 -> same_oracles w2 w3 -> same_oracles w1 w3.
Proof.
  unfold same_oracles. intros (A1 & A2 & A3) (B1 & B2 & B3).
  repeat split; congruence.
Qed.


Lemma rate_limit_world c w :
  let '(c', w') := _rate_limit c w in
  same_oracles w w' /\ requests w' = requests w
  /\ name c' = name c /\ endpoints c' = endpoints c /\ base_url c' = base_url c
  /\ last_request_time c' = clock w'.
Proof.
  unfold _rate_limit, time_time, time_sleep, emit, elapse. simpl.
  destruct (negb _); simpl; repeat split.
Qed.

(** The limiter: the new stamp is at least one interval after the old one. *)
Lemma rate_limit_gap c w :
  steady w ->
  (last_request_time c + RATE_LIMIT_DELAY
   <= last_request_time (fst (_rate_limit c w)))%Q.
Proof.
  intros Hs. unfold _rate_limit, time_time, time_sleep, emit, elapse. simpl.
  destruct (Qle_bool RATE_LIMIT_DELAY
              (clock w + lag w (ticks w) - last_request_time c)) eqn:E; simpl.
  - apply Qle_bool_iff in E. pose proof (Hs (S (ticks w))). lra.
  - pose proof (Hs (S (ticks w))). pose proof (Hs (S (S (ticks w)))). lra.
Qed.



Lemma session_get_world url params w :
  let '(x, w') := session_get url params w in
  x = net w (requests w) /\ same_oracles w w' /\ requests w' = S (requests w)
  /\ trace w' = trace w ++ [EvGet url params]
  /\ clock w' = (clock w + lag w (ticks w))%Q.
Proof. unfold session_get, emit, elapse. simpl. repeat split. Qed.

Lemma time_sleep_world d w :
  same_oracles w (time_sleep d w) /\ requests (time_sleep d w) = requests w
  /\ trace (time_sleep d w) = trace w ++ [EvSleep d]
  /\ clock (time_sleep d w) = (clock w + lag w (ticks w) + d)%Q.
Proof. unfold time_sleep, emit, elapse. simpl. repeat split. Qed.










End ClientProperties.

(* ================================================================== *)
(** ** Properties of the agent *)

Section AgentProperties.
Import Py Env Client Scorer Agent Spec.
Local Open Scope string_scope.
Local Open Scope list_scope.










(** Four runs of the pipeline on a fresh agent: no archive answers; one
    record but no image; a letter on disk but no OCR engine; everything
    works. *)
Example full_search_runs :
  status (fst (fst (execute_full_search (Agent.init [] true) offline))) = "failure"
  /\ status (fst (fst (execute_full_search (Agent.init [] true) no_images)))
     = "partial"
  /\ status (fst (fst (execute_full_search (Agent.init [] false) helpful)))
     = "partial"
  /\ status (fst (fst (execute_full_search (Agent.init [] true) helpful)))
     = "success".
Proof. repeat split; vm_compute; reflexivity. Qed.



(** The loop of [extract_letter_content] appends what each document
    contributes, in order. *)
Lemma extract_loop_eq : forall docs acc,
  extract_loop docs acc = acc ++ flat_map (fun d => opt_list (letter_of d)) docs.
Proof.
  induction docs as [|doc docs IH]; intros acc.
  - simpl. rewrite app_nil_r. reflexivity.
  - cbn [extract_loop flat_map]. unfold letter_of.
    destruct (analysis doc) as [a|]; cbn [opt_list app]; [|apply IH].
    destruct (likely_correspondence a); cbn [negb opt_list app]; [|apply IH].
    destruct (Nat.leb 2 (len (extract_fields (all_text_of doc))));
      cbn [opt_list app]; [|apply IH].
    rewrite IH, <- app_assoc. reflexivity.
Qed.

Lemma in_sorted_reverse {A : Type} (key : A -> Z) (x : A) (l : list A) :
  In x (sorted_reverse key l) <-> In x l.
Proof.
  unfold sorted_reverse. split; apply Permutation_in.
  - apply sorted_perm.
  - symmetry. apply sorted_perm.
Qed.

Lemma in_extract_letter_content e ocr_results :
  In e (extract_letter_content ocr_results) <->
  exists doc, In doc ocr_results /\ letter_of doc = Some e.
Proof.
  unfold extract_letter_content. rewrite in_sorted_reverse, extract_loop_eq.
  simpl. rewrite in_flat_map. split; intros [doc [H1 H2]]; exists doc;
    (split; [exact H1|]); destruct (letter_of doc) as [e'|]; simpl in *.
  - destruct H2 as [->|[]]. reflexivity.
  - destruct H2.
  - inversion H2. left; reflexivity.
  - discriminate.
Qed.

Lemma likely_needs_fairfax text :
  likely_correspondence (analyze_text text) = true -> fairfax_match text = true.
Proof.
  rewrite analyze_text_eq. cbn. intros H.
  apply andb_true_iff in H. destruct H as [H _].
  apply andb_true_iff in H. tauto.
Qed.

(** The fields the line loop records are non-empty lines. *)
Lemma populated_with_date v c :
  v <> "" -> populated c -> populated (with_date v c).
Proof.
  intros Hv Hp x Hx. simpl in Hx.
  destruct Hx as [E|Hx]; [inversion E; subst; exact Hv|].
  apply Hp. simpl. tauto.
Qed.

Lemma populated_with_salutation v c :
  v <> "" -> populated c -> populated (with_salutation v c).
Proof.
  intros Hv Hp x Hx. simpl in Hx.
  destruct Hx as [E|[E|Hx]]; [apply Hp; simpl; tauto
                             |inversion E; subst; exact Hv|].
  apply Hp. simpl. tauto.
Qed.

Lemma populated_with_signature v c :
  v <> "" -> populated c -> populated (with_signature v c).
Proof.
  intros Hv Hp x Hx. simpl in Hx.
  destruct Hx as [E|[E|[E|Hx]]];
    [apply Hp; simpl; tauto | apply Hp; simpl; tauto
     | inversion E; subst; exact Hv |].
  apply Hp. simpl. tauto.
Qed.

Lemma populated_with_body v c :
  v <> "" -> populated c -> populated (with_body v c).
Proof.
  intros Hv Hp x Hx. simpl in Hx.
  destruct Hx as [E|[E|[E|[E|[]]]]];
    [apply Hp; simpl; tauto | apply Hp; simpl; tauto | apply Hp; simpl; tauto
     | inversion E; subst; exact Hv].
Qed.

Lemma line_step_invariant st raw :
  line_invariant st -> line_invariant (line_step st raw).
Proof.
  intros (Hp & Hb & Hl). unfold line_step.
  destruct (Str.strip raw) as [|c s] eqn:E; [repeat split; assumption|].
  cbn [Str.is_empty].
  assert (Hne : String c s <> "") by discriminate.
  destruct (negb (truthy (c_date (letter_content st)))
            && Re.found false date_line_pattern (String c s)).
  { split; [apply populated_with_date; assumption|]. split; assumption. }
  destruct (negb (truthy (c_salutation (letter_content st)))
            && Str.startswith "Dear" (String c s)).
  { split; [apply populated_with_salutation; assumption|]. split; assumption. }
  destruct (in_body st).
  - destruct (Str.contains "Sincerely" (String c s)
              || Str.contains "Yours" (String c s)); cbn [andb].
    + split; [apply populated_with_signature; assumption|]. split; assumption.
    + split; [assumption|]. split; [assumption|].
      cbn [body_lines]. apply Forall_app. split; [assumption|].
      constructor; [assumption|constructor].
  - cbn [andb]. repeat split; assumption.
Qed.

Lemma fold_line_invariant lines : forall st,
  line_invariant st -> line_invariant (fold_left line_step lines st).
Proof.
  induction lines as [|l lines IH]; intros st H; simpl; [exact H|].
  apply IH, line_step_invariant, H.
Qed.

Lemma join_nonempty sep x l : x <> "" -> Str.join sep (x :: l) <> "".
Proof.
  intros Hx. destruct x as [|c x]; [congruence|].
  destruct l; simpl; discriminate.
Qed.

Lemma extract_fields_populated all_text : populated (extract_fields all_text).
Proof.
  unfold extract_fields.
  assert (H : line_invariant
                (fold_left line_step (Str.split_nl all_text) start_state)).
  { apply fold_line_invariant. split; [|split; [reflexivity|constructor]].
    intros v Hv. simpl in Hv. destruct Hv as [E|[E|[E|[E|[]]]]]; discriminate. }
  destruct H as (Hp & _ & Hl).
  destruct (body_lines _) as [|b bs]; [exact Hp|].
  apply populated_with_body; [|exact Hp].
  apply join_nonempty. inversion Hl; assumption.
Qed.

(** What [process_ocr] analyses is the text [extract_letter_content] reads. *)
Lemma ocr_document_analysis p doc w a :
  analysis (ocr_document p doc w) = Some a ->
  a = analyze_text (all_text_of (ocr_document p doc w)).
Proof.
  unfold ocr_document, all_text_of. cbn [analysis pages].
  rewrite map_map. cbn [text].
  destruct (map (fun img_path => process_image p img_path w) (d_images doc));
    [discriminate|].
  intros H. inversion H. reflexivity.
Qed.

(** C6. Every extracted letter comes from a document whose analysis has
    [likely_correspondence] true and for which at least two of the fields
    date, salutation, signature, body were found, each of them a non-empty
    text.  End to end, on the results
    of [process_ocr], the text of every extracted letter has a Fairfax match;
    a document whose text has none contributes nothing, whatever else it
    contains. *)
Theorem extracted_letters_provenance (ocr_results : list OcrResult) (e : Letter) :
  In e (extract_letter_content ocr_results) ->
  (exists doc a,
     In doc ocr_results /\ analysis doc = Some a
     /\ likely_correspondence a = true
     /\ e = mkLetter (o_archive doc) (o_reference doc) (o_title doc) (o_date doc)
                     (extract_fields (all_text_of doc)) (relevance_score a)
                     (all_text_of doc)
     /\ 2 <= len (extracted_content e)
     /\ populated (extracted_content e))
  /\ (forall docs ag w,
        ocr_results = process_ocr docs ag w ->
        fairfax_match (full_text e) = true)
  /\ (forall docs ag w doc,
        In doc (process_ocr docs ag w) ->
        fairfax_match (all_text_of doc) = false -> letter_of doc = None).
Proof.
  intros He. apply in_extract_letter_content in He.
  destruct He as (doc & Hin & Hl).
  assert (Hprov : exists a,
             analysis doc = Some a /\ likely_correspondence a = true
             /\ e = mkLetter (o_archive doc) (o_reference doc) (o_title doc)
                             (o_date doc) (extract_fields (all_text_of doc))
                             (relevance_score a) (all_text_of doc)
             /\ 2 <= len (extracted_content e)
             /\ populated (extracted_content e)).
  { unfold letter_of in Hl. destruct (analysis doc) as [a|]; [|discriminate].
    destruct (likely_correspondence a) eqn:La; cbn [negb] in Hl; [|discriminate].
    destruct (Nat.leb 2 (len (extract_fields (all_text_of doc)))) eqn:L2;
      [|discriminate].
    inversion Hl; subst. exists a.
    split; [reflexivity|]. split; [exact La|]. split; [reflexivity|].
    cbn [extracted_content].
    split; [apply Nat.leb_le; exact L2 | apply extract_fields_populated]. }
  assert (Hnone : forall docs ag w d,
             In d (process_ocr docs ag w) ->
             fairfax_match (all_text_of d) = false -> letter_of d = None).
  { intros docs ag w d Hd Hf. unfold process_ocr in Hd.
    apply in_map_iff in Hd. destruct Hd as (dd & <- & _).
    unfold letter_of.
    destruct (analysis (ocr_document (ocr_processor ag) dd w)) as [a|] eqn:Ea;
      [|reflexivity].
    apply ocr_document_analysis in Ea. subst a.
    destruct (likely_correspondence _) eqn:La; [|reflexivity].
    apply likely_needs_fairfax in La. congruence. }
  split; [|split].
  - destruct Hprov as (a & H). exists doc, a. tauto.
  - intros docs ag w ->.
    destruct (fairfax_match (full_text e)) eqn:Ef; [reflexivity|].
    destruct Hprov as (a & _ & _ & -> & _ & _). simpl in Ef.
    rewrite (Hnone docs ag w doc Hin Ef) in Hl. discriminate.
  - exact Hnone.
Qed.

Lemma extracted_letters_provenance_witness :
  exists e,
    In e (extract_letter_content
            [mkOcr "Churchill Archives Centre" "CHAR 2/1" "Letter" "12 Nov 1946"
                   [mkPage "page_1.jpg" sample_letter]
                   (Some (analyze_text sample_letter))])
    /\ 2 <= len (extracted_content e).
Proof.
  eexists. split.
  - left. reflexivity.
  - match goal with
    | |- 2 <= len (extracted_content ?e) =>
        destruct (extracted_letters_provenance
                    [mkOcr "Churchill Archives Centre" "CHAR 2/1" "Letter"
                           "12 Nov 1946" [mkPage "page_1.jpg" sample_letter]
                           (Some (analyze_text sample_letter))] e)
          as [(doc & a & _ & _ & _ & _ & H & _) _]; [left; reflexivity | exact H]
    end.
Defined.

(** C7. For a document judged likely correspondence whose text is the five
    lines "12 November 1946", "Dear Winston,", "It was good to see you.",
    "Yours sincerely,", "Bryan" (on one page, or one line per page), the
    extracted fields are the first line as date, the second as salutation,
    the third as body and the fourth as signature. *)
Theorem extract_sample_letter (arch ref ttl dt path : string) (a : Analysis) :
  likely_correspondence a = true ->
  Str.split_nl sample_letter
  = ["12 November 1946"; "Dear Winston,"; "It was good to see you.";
     "Yours sincerely,"; "Bryan"]
  /\ extract_letter_content [mkOcr arch ref ttl dt [mkPage path sample_letter] (Some a)]
     = [mkLetter arch ref ttl dt
          (mkContent (Some "12 November 1946") (Some "Dear Winston,")
                     (Some "Yours sincerely,") (Some "It was good to see you."))
          (relevance_score a) sample_letter]
  /\ map extracted_content
         (extract_letter_content
            [mkOcr arch ref ttl dt
                   (map (mkPage path)
                        ["12 November 1946"; "Dear Winston,";
                         "It was good to see you."; "Yours sincerely,"; "Bryan"])
                   (Some a)])
     = [mkContent (Some "12 November 1946") (Some "Dear Winston,")
                  (Some "Yours sincerely,") (Some "It was good to see you.")].
Proof.
  intros La. split; [reflexivity|]. split.
  2:{ unfold extract_letter_content. cbn [extract_loop analysis]. rewrite La.
      cbn [negb]. unfold all_text_of. cbn [pages map text].
      match goal with
      | |- context [extract_fields ?t] =>
          change (extract_fields t)
            with (mkContent (Some "12 November 1946") (Some "Dear Winston,")
                            (Some "Yours sincerely,")
                            (Some "It was good to see you."))
      end.
      reflexivity. }
  unfold extract_letter_content. cbn [extract_loop analysis]. rewrite La.
  cbn [negb]. unfold all_text_of. cbn [pages map text Str.join].
  change (extract_fields sample_letter)
    with (mkContent (Some "12 November 1946") (Some "Dear Winston,")
                    (Some "Yours sincerely,") (Some "It was good to see you.")).
  reflexivity.
Qed.

Lemma extract_sample_letter_witness :
  likely_correspondence (analyze_text sample_letter) = true
  /\ map extracted_content
       (extract_letter_content
          [mkOcr "Churchill Archives Centre" "CHAR 2/1" "Letter" "12 Nov 1946"
                 [mkPage "page_1.jpg" sample_letter]
                 (Some (analyze_text sample_letter))])
     = [mkContent (Some "12 November 1946") (Some "Dear Winston,")
                  (Some "Yours sincerely,") (Some "It was good to see you.")].
Proof.
  split; [reflexivity|].
  rewrite (proj1 (proj2 (extract_sample_letter "Churchill Archives Centre"
                           "CHAR 2/1" "Letter" "12 Nov 1946" "page_1.jpg"
                           (analyze_text sample_letter) eq_refl))).
  reflexivity.
Defined.

(** C10. The date test comes first in every state: a non-blank line that
    matches the date pattern while no date is recorded becomes the date, also
    inside the body (after the salutation, before the signature), and is then
    not appended to the body lines. *)
Theorem date_line_taken_in_any_state (st : ExtractState) (raw : string) :
  Str.strip raw <> "" ->
  truthy (c_date (letter_content st)) = false ->
  Re.found false date_line_pattern (Str.strip raw) = true ->
  line_step st raw
  = mkState (with_date (Str.strip raw) (letter_content st))
                 (in_body st) (body_lines st)
  /\ body_lines (line_step st raw) = body_lines st
  /\ extract_fields late_date_letter
     = mkContent (Some "We met on 3 March 1950 in London.") (Some "Dear Sir,")
                 (Some "Yours truly") (Some "It was a pleasure.").
Proof.
  intros Hne Hd Hm. unfold line_step.
  destruct (Str.strip raw) as [|c s] eqn:E; [congruence|].
  cbn [Str.is_empty]. rewrite Hd, Hm. cbn [negb andb].
  repeat split.
Qed.

Lemma date_line_taken_in_any_state_witness :
  line_step (mkState (with_salutation "Dear Sir," empty_content) true
                          ["First line of the body."])
            "  We met on 3 March 1950 in London. "
  = mkState
      (mkContent (Some "We met on 3 March 1950 in London.") (Some "Dear Sir,")
                 None None)
      true ["First line of the body."].
Proof.
  apply (date_line_taken_in_any_state
           (mkState (with_salutation "Dear Sir," empty_content) true
                         ["First line of the body."])
           "  We met on 3 March 1950 in London. ");
    [discriminate | reflexivity | reflexivity].
Defined.

End AgentProperties.

(* ================================================================== *)
(** ** Further properties of the archive client *)

Section ClientBehaviour.
Import Py Env Client Agent Spec.
Local Open Scope string_scope.
Local Open Scope list_scope.




(** The retry loop under any network behaviour. *)
Lemma download_loop_outcome url path : forall remaining retries w,
  let f := leading_failures (net w) (requests w) remaining in
  let '(ok, w') := download_loop remaining retries url path w in
  ok = Nat.ltb f remaining
  /\ requests w' = requests w + f + (if ok then 1 else 0)
  /\ trace w' = trace w ++ failed_attempts url retries f
                ++ (if ok then [EvGet url []; EvWrite path] else [])
  /\ same_oracles w w'.
Proof.
  induction remaining as [|remaining IH]; intros retries w; cbn zeta.
  - simpl. rewrite !Nat.add_0_r, app_nil_r. repeat split.
  - cbn [download_loop leading_failures].
    pose proof (session_get_world url [] w) as Hg.
    destruct (session_get url [] w) as [x w1].
    destruct Hg as (-> & So1 & R1 & T1 & _).
    destruct (net w (requests w)) as [msg|body]; cbn [is_failed].
    + set (d := inject_Z (Z.of_nat (S retries * 2))).
      destruct (time_sleep_world d w1) as (So2 & R2 & T2 & _).
      specialize (IH (S retries) (time_sleep d w1)). cbn zeta in IH.
      destruct (download_loop remaining (S retries) url path (time_sleep d w1))
        as [ok w'].
      destruct IH as (-> & R3 & T3 & So3).
      assert (N : net (time_sleep d w1) = net w).
      { destruct So1 as (_ & N1 & _). destruct So2 as (_ & N2 & _). congruence. }
      rewrite N, R2, R1 in *.
      split; [reflexivity|]. split; [rewrite R3; lia|]. split.
      * rewrite T3, T2, T1. cbn [failed_attempts]. rewrite <- !app_assoc.
        reflexivity.
      * eapply same_oracles_trans; [exact So1|].
        eapply same_oracles_trans; [exact So2|exact So3].
    + unfold write_file, emit. simpl.
      split; [reflexivity|]. split; [lia|]. split.
      * rewrite T1, <- app_assoc. reflexivity.
      * destruct So1 as (A & B & C). repeat split; assumption.
Qed.



(** X3. [get_document] reads the ["item"] endpoint before its [try]: on a
    client configured without one it raises [KeyError] once the limiter has
    run, so the call uses up a rate-limit slot and issues no request.  Of the
    three configured archives this is the case for the University of Toronto
    Archives, and only for it. *)
Theorem get_document_without_item_endpoint (c : Client) (doc_id : string)
  (w : World) :
  lookup "item" (endpoints c) = None ->
  get_document c doc_id w
  = (Raise "KeyError", fst (_rate_limit c w), snd (_rate_limit c w))
  /\ requests (snd (get_document c doc_id w)) = requests w
  /\ filter is_get (trace (snd (get_document c doc_id w)))
     = filter is_get (trace w)
  /\ (steady w ->
      (last_request_time c + RATE_LIMIT_DELAY
       <= last_request_time (snd (fst (get_document c doc_id w))))%Q)
  /\ (forall environ,
        map (fun cfg => lookup "item" (endpoints (Client.init environ cfg)))
            ARCHIVES
        = [Some "archives/record"; Some "item"; None]).
Proof.
  intros Hno.
  assert (E : get_document c doc_id w
              = (Raise "KeyError", fst (_rate_limit c w), snd (_rate_limit c w))).
  { unfold get_document.
    pose proof (rate_limit_world c w) as Hw.
    destruct (_rate_limit c w) as [c1 w1].
    destruct Hw as (_ & _ & _ & He & _). rewrite He, Hno. reflexivity. }
  rewrite E. cbn [fst snd].
  split; [reflexivity|].
  pose proof (rate_limit_world c w) as Hw.
  pose proof (rate_limit_gap c w) as Hgap.
  destruct (_rate_limit c w) as [c1 w1] eqn:Er.
  destruct Hw as (_ & R & _). cbn [fst snd] in *.
  split; [exact R|]. split.
  - assert (T : trace w1 = trace (snd (_rate_limit c w))) by (rewrite Er; reflexivity).
    rewrite T. unfold _rate_limit, time_time, time_sleep, emit, elapse. simpl.
    destruct (negb _); simpl; [|reflexivity].
    rewrite filter_app. simpl. rewrite app_nil_r. reflexivity.
  - split; [exact Hgap | intros environ; reflexivity].
Qed.

Lemma get_document_without_item_endpoint_witness :
  fst (fst (get_document
              (Client.init [] (mkArchive "University of Toronto Archives"
                                 "https://utarms.library.utoronto.ca/"
                                 [("search", "index.php/informationobject/browse")]
                                 "UTARMS_API_KEY" ["B1994-0002"; "B2015-0005"]))
              "B1994-0002/001" offline))
  = Raise "KeyError".
Proof.
  rewrite (proj1 (get_document_without_item_endpoint
                    (Client.init [] (mkArchive "University of Toronto Archives"
                                       "https://utarms.library.utoronto.ca/"
                                       [("search", "index.php/informationobject/browse")]
                                       "UTARMS_API_KEY" ["B1994-0002"; "B2015-0005"]))
                    "B1994-0002/001" offline eq_refl)).
  reflexivity.
Defined.

End ClientBehaviour.

(* ================================================================== *)
(** ** The search stage *)

Section SearchStage.
Import Py Env Client Agent Spec.
Local Open Scope string_scope.
Local Open Scope list_scope.

(** Conjunctions whose parts are at hand. *)
Ltac at_hand := first [assumption | reflexivity].
Ltac conjuncts := repeat (split; [at_hand|]); at_hand.
Ltac split_all := repeat match goal with |- _ /\ _ => split end.

Lemma rate_limit_client c w :
  fst (_rate_limit c w)
  = set_last_request_time (last_request_time (fst (_rate_limit c w))) c.
Proof. reflexivity. Qed.

(** One search on a client that has a search endpoint: one exchange, whose
    outcome is read by [read_json]; only the stamp of the client changes. *)
Lemma search_outcome c q p w ep :
  lookup "search" (endpoints c) = Some ep ->
  exists t w',
    Client.search c q p w
    = (read_json (net w (requests w)), set_last_request_time t c, w')
    /\ requests w' = S (requests w) /\ same_oracles w w'.
Proof.
  intros Hep. unfold Client.search.
  pose proof (rate_limit_world c w) as Hw.
  pose proof (rate_limit_client c w) as Hc.
  destruct (_rate_limit c w) as [c1 w1]. cbn [fst] in Hc.
  destruct Hw as (So1 & R1 & _ & He & _).
  rewrite He, Hep.
  pose proof (session_get_world (urljoin (base_url c1) ep)
                (_prepare_search_params q p) w1) as Hg.
  destruct (session_get _ _ w1) as [x w2].
  destruct Hg as (-> & So2 & R2 & _).
  exists (last_request_time c1), w2.
  destruct So1 as (A & B & C). rewrite B, R1, <- Hc.
  split; [reflexivity|]. split; [congruence|].
  eapply same_oracles_trans; [|exact So2]. repeat split; assumption.
Qed.

Lemma store_client_same c' : forall cs i c,
  nth_error cs i = Some c ->
  nth_error (store_client i c' cs) i = Some c'
  /\ (name c' = name c -> map name (store_client i c' cs) = map name cs)
  /\ (endpoints c' = endpoints c ->
      map endpoints (store_client i c' cs) = map endpoints cs).
Proof.
  induction cs as [|c0 cs IH]; intros i c H; [destruct i; discriminate|].
  destruct i as [|i]; simpl in *.
  - inversion H; subst. repeat split; intros ->; reflexivity.
  - destruct (IH i c H) as (A & B & C).
    repeat split; [exact A | intros E; rewrite (B E); reflexivity
                   | intros E; rewrite (C E); reflexivity].
Qed.

Lemma collect_items_spec a p : forall items lines ag,
  collect_items a p items lines ag
  = (lines ++ locations_of p a items,
     mkAgent (search_results ag ++ records_of a items)
             (most_likely_locations ag) (api_clients ag) (ocr_processor ag)).
Proof.
  induction items as [|item items IH]; intros lines ag; simpl.
  - rewrite !app_nil_r. destruct ag; reflexivity.
  - rewrite IH. unfold append_result. simpl. rewrite <- !app_assoc. reflexivity.
Qed.

Lemma configured_clients cs :
  configured cs ->
  exists c0 c1 c2,
    cs = [c0; c1; c2]
    /\ name c0 = "Churchill Archives Centre"
    /\ name c1 = "Library and Archives Canada"
    /\ name c2 = "University of Toronto Archives"
    /\ lookup "search" (endpoints c0) = Some "search"
    /\ lookup "search" (endpoints c1) = Some "record"
    /\ lookup "search" (endpoints c2) = Some "index.php/informationobject/browse".
Proof.
  intros [Hn He].
  destruct cs as [|c0 [|c1 [|c2 [|c3 cs]]]]; try discriminate.
  simpl in Hn, He. inversion Hn. inversion He.
  exists c0, c1, c2. repeat split; try assumption;
    match goal with H : endpoints ?c = _ |- lookup _ (endpoints ?c) = _ =>
      rewrite H; reflexivity end.
Qed.

Lemma configured_init environ : configured (map (Client.init environ) ARCHIVES).
Proof. split; reflexivity. Qed.

Lemma churchill_search_spec (query : option string) (ag : Agent) (w : World) :
  configured (api_clients ag) ->
  let '(locs, ag', w') := search_churchill_archives query ag w in
  let items := usable_items (net w (requests w)) in
  locs = locations_of "" "Churchill Archives Centre" items
  /\ search_results ag'
     = search_results ag ++ records_of "Churchill Archives Centre" items
  /\ most_likely_locations ag' = most_likely_locations ag ++ locs
  /\ ocr_processor ag' = ocr_processor ag
  /\ configured (api_clients ag')
  /\ requests w' = S (requests w)
  /\ same_oracles w w'.
Proof.
  intros Hc.
  destruct (configured_clients _ Hc) as (c0 & c1 & c2 & Ecs & N0 & _ & _ & S0 & _).
  unfold search_churchill_archives. rewrite Ecs.
  cbn [find_client]. rewrite N0. cbn [String.eqb Ascii.eqb Bool.eqb].
  destruct (search_outcome c0
              (if truthy query then or_default query "" else "Fairfax correspondence")
              (mkParams (Some search_window_start) (Some search_window_end)
                        (Some "CHAR") (Some 50) None) w "search" S0)
    as (t & w' & Es & R & So).
  rewrite Es. cbn [store_client].
  assert (Hc' : configured [set_last_request_time t c0; c1; c2]).
  { rewrite Ecs in Hc. exact Hc. }
  unfold usable_items.
  destruct (read_json (net w (requests w))) as [results|e].
  - destruct (j_error results).
    + cbn. rewrite !app_nil_r. conjuncts.
    + rewrite collect_items_spec. cbn. conjuncts.
  - cbn. rewrite !app_nil_r. conjuncts.
Qed.

(** X4. The Churchill search makes one request.  Its items, when the response
    is usable, are appended in order to the records (with "Unknown",
    "Untitled" and "" standing in for a missing reference, title and date)
    and to the locations; a failed, error-tagged or undecodable response
    changes neither and gives the empty list. *)
Theorem churchill_search_outcome (query : option string) (ag : Agent) (w : World) :
  configured (api_clients ag) ->
  let '(locs, ag', w') := search_churchill_archives query ag w in
  let items := usable_items (net w (requests w)) in
  locs = locations_of "" "Churchill Archives Centre" items
  /\ search_results ag'
     = search_results ag ++ records_of "Churchill Archives Centre" items
  /\ most_likely_locations ag' = most_likely_locations ag ++ locs
  /\ ocr_processor ag' = ocr_processor ag
  /\ configured (api_clients ag')
  /\ requests w' = S (requests w)
  /\ same_oracles w w'.
Proof. exact (churchill_search_spec query ag w). Qed.

Lemma churchill_search_outcome_witness :
  configured (api_clients (Agent.init [] true))
  /\ search_results
       (snd (fst (search_churchill_archives None (Agent.init [] true) helpful)))
     = [mkRecord "Churchill Archives Centre" "CHAR 2/1" "Fairfax to Churchill"
                 "12 Nov 1946" (Some "id1") ["https://host/scan.jpg"]].
Proof.
  split; [apply configured_init|].
  pose proof (churchill_search_outcome None (Agent.init [] true) helpful
                (configured_init [])) as H.
  destruct (search_churchill_archives None (Agent.init [] true) helpful)
    as [[locs ag'] w'].
  destruct H as (_ & H & _). cbn [fst snd]. rewrite H. reflexivity.
Defined.

Lemma answers_step net start n :
  answers net start (S n) = usable_items (net start) ++ answers net (S start) n.
Proof. reflexivity. Qed.

Lemma answers_app net start n m :
  answers net start (n + m) = answers net start n ++ answers net (start + n) m.
Proof.
  revert start. induction n as [|n IH]; intros start.
  - simpl. rewrite Nat.add_0_r. reflexivity.
  - cbn [Nat.add]. rewrite !answers_step, IH, <- app_assoc.
    replace (S start + n) with (start + S n) by lia. reflexivity.
Qed.

(** The loop over the query variants of one archive. *)
Lemma query_loop_spec a p i params : forall queries sources ag w c ep,
  nth_error (api_clients ag) i = Some c ->
  lookup "search" (endpoints c) = Some ep ->
  let '(srcs, ag', w') := query_loop a p i params queries sources ag w in
  let items := answers (net w) (requests w) (List.length queries) in
  srcs = sources ++ locations_of p a items
  /\ search_results ag' = search_results ag ++ records_of a items
  /\ most_likely_locations ag' = most_likely_locations ag
  /\ ocr_processor ag' = ocr_processor ag
  /\ map name (api_clients ag') = map name (api_clients ag)
  /\ map endpoints (api_clients ag') = map endpoints (api_clients ag)
  /\ requests w' = requests w + List.length queries
  /\ same_oracles w w'.
Proof.
  induction queries as [|q queries IH]; intros sources ag w c ep Hn Hep.
  - cbn. rewrite !app_nil_r, Nat.add_0_r.
    repeat (split; [reflexivity|]). apply same_oracles_refl.
  - cbn [query_loop List.length]. rewrite Hn.
    destruct (search_outcome c q params w ep Hep) as (t & w1 & Es & R & So).
    rewrite Es.
    set (c' := set_last_request_time t c).
    destruct (store_client_same c' (api_clients ag) i c Hn) as (Hn' & Hnm & Hen).
    specialize (Hnm eq_refl). specialize (Hen eq_refl).
    set (ag1 := set_clients (store_client i c' (api_clients ag)) ag).
    rewrite answers_step.
    assert (Hstep : forall srcs1 ag2,
               search_results ag2
               = search_results ag ++ records_of a (usable_items (net w (requests w))) ->
               srcs1 = sources ++ locations_of p a (usable_items (net w (requests w))) ->
               most_likely_locations ag2 = most_likely_locations ag ->
               ocr_processor ag2 = ocr_processor ag ->
               api_clients ag2 = store_client i c' (api_clients ag) ->
               let '(srcs, ag', w') :=
                 query_loop a p i params queries srcs1 ag2 w1 in
               srcs = sources
                      ++ locations_of p a
                           (usable_items (net w (requests w))
                            ++ answers (net w) (S (requests w)) (List.length queries))
               /\ search_results ag'
                  = search_results ag
                    ++ records_of a
                         (usable_items (net w (requests w))
                          ++ answers (net w) (S (requests w)) (List.length queries))
               /\ most_likely_locations ag' = most_likely_locations ag
               /\ ocr_processor ag' = ocr_processor ag
               /\ map name (api_clients ag') = map name (api_clients ag)
               /\ map endpoints (api_clients ag') = map endpoints (api_clients ag)
               /\ requests w' = requests w + S (List.length queries)
               /\ same_oracles w w').
    { intros srcs1 ag2 E1 E2 E3 E4 E5.
      assert (Hn2 : nth_error (api_clients ag2) i = Some c') by (rewrite E5; exact Hn').
      specialize (IH srcs1 ag2 w1 c' ep Hn2 Hep).
      destruct (query_loop a p i params queries srcs1 ag2 w1) as [[srcs ag'] w'].
      cbn zeta in IH.
      destruct IH as (I1 & I2 & I3 & I4 & I5 & I6 & I7 & I8).
      destruct So as (A & B & C). rewrite B, R in I1, I2.
      unfold locations_of, records_of in *. rewrite !map_app.
      split_all.
      - rewrite I1, E2, <- app_assoc. reflexivity.
      - rewrite I2, E1, <- app_assoc. reflexivity.
      - congruence.
      - congruence.
      - rewrite I5, E5. exact Hnm.
      - rewrite I6, E5. exact Hen.
      - lia.
      - eapply same_oracles_trans; [|exact I8]. repeat split; assumption. }
    unfold usable_items in *.
    destruct (read_json (net w (requests w))) as [results|e].
    + destruct (j_error results).
      * apply Hstep; try reflexivity; cbn; rewrite app_nil_r; reflexivity.
      * rewrite collect_items_spec. apply Hstep; reflexivity.
    + apply Hstep; try reflexivity; cbn; rewrite app_nil_r; reflexivity.
Qed.

Lemma canadian_search_spec (ag : Agent) (w : World) :
  configured (api_clients ag) ->
  let '(sources, ag', w') := search_canadian_archives ag w in
  let lac := answers (net w) (requests w) 3 in
  let toronto := answers (net w) (requests w + 3) 3 in
  sources = locations_of "LAC: " "Library and Archives Canada" lac
            ++ locations_of "UofT: " "University of Toronto Archives" toronto
  /\ search_results ag'
     = search_results ag
       ++ records_of "Library and Archives Canada" lac
       ++ records_of "University of Toronto Archives" toronto
  /\ most_likely_locations ag' = most_likely_locations ag ++ sources
  /\ ocr_processor ag' = ocr_processor ag
  /\ configured (api_clients ag')
  /\ requests w' = requests w + 6
  /\ same_oracles w w'.
Proof.
  intros Hc.
  destruct (configured_clients _ Hc)
    as (c0 & c1 & c2 & Ecs & N0 & N1 & N2 & S0 & S1 & S2).
  unfold search_canadian_archives. rewrite Ecs.
  cbn [find_client]. rewrite N0, N1, N2.
  cbn [String.eqb Ascii.eqb Bool.eqb].
  pose proof (query_loop_spec "Library and Archives Canada" "LAC: " 1
                (mkParams (Some search_window_start) (Some search_window_end)
                          None (Some 30) None)
                ["Bryan Charles Fairfax Churchill";
                 "Colonel Fairfax correspondence"; "Fairfax Winston Churchill"]
                [] ag w c1 "record") as H1.
  rewrite Ecs in H1. specialize (H1 eq_refl S1).
  destruct (query_loop "Library and Archives Canada" "LAC: " 1 _ _ [] ag w)
    as [[s1 ag1] w1].
  cbn zeta in H1. cbn [List.length] in H1.
  destruct H1 as (A1 & A2 & A3 & A4 & A5 & A6 & A7 & A8).
  assert (Hc1 : configured (api_clients ag1)).
  { destruct Hc as [Hn He]. split; congruence. }
  destruct (configured_clients _ Hc1)
    as (d0 & d1 & d2 & Eds & _ & _ & _ & _ & _ & T2).
  pose proof (query_loop_spec "University of Toronto Archives" "UofT: " 2
                (mkParams None None (Some "B1994-0002") (Some 30) None)
                ["Fairfax Churchill"; "Bryan Charles Fairfax correspondence";
                 "Fairfax Winston"]
                s1 ag1 w1 d2 "index.php/informationobject/browse") as H2.
  rewrite Eds in H2. specialize (H2 eq_refl T2).
  destruct (query_loop "University of Toronto Archives" "UofT: " 2 _ _ s1 ag1 w1)
    as [[s2 ag2] w2].
  cbn zeta in H2. cbn [List.length] in H2.
  destruct H2 as (B1 & B2 & B3 & B4 & B5 & B6 & B7 & B8).
  destruct A8 as (X & Y & Z). rewrite Y, A7 in B1, B2.
  cbn [extend_locations search_results most_likely_locations ocr_processor
       api_clients].
  subst s1. cbn [app] in B1.
  split; [exact B1|]. split; [rewrite B2, A2, <- app_assoc; reflexivity|].
  split; [rewrite B3, A3; reflexivity|]. split; [congruence|].
  split; [destruct Hc1 as [Hn He]; split; congruence|].
  split; [lia|].
  eapply same_oracles_trans; [|exact B8]. repeat split; assumption.
Qed.

(** X5. The Canadian searches make six requests, three per archive, and each
    query stands alone: a query that fails, is error-tagged or cannot be
    decoded contributes nothing and stops neither the later queries nor the
    other archive.  The records and the sources returned are the items of the
    usable responses, in request order. *)
Theorem canadian_search_outcome (ag : Agent) (w : World) :
  configured (api_clients ag) ->
  let '(sources, ag', w') := search_canadian_archives ag w in
  let lac := answers (net w) (requests w) 3 in
  let toronto := answers (net w) (requests w + 3) 3 in
  sources = locations_of "LAC: " "Library and Archives Canada" lac
            ++ locations_of "UofT: " "University of Toronto Archives" toronto
  /\ search_results ag'
     = search_results ag
       ++ records_of "Library and Archives Canada" lac
       ++ records_of "University of Toronto Archives" toronto
  /\ most_likely_locations ag' = most_likely_locations ag ++ sources
  /\ ocr_processor ag' = ocr_processor ag
  /\ configured (api_clients ag')
  /\ requests w' = requests w + 6
  /\ same_oracles w w'.
Proof. exact (canadian_search_spec ag w). Qed.

Lemma canadian_search_outcome_witness :
  configured (api_clients (Agent.init [] true))
  /\ search_results
       (snd (fst (search_canadian_archives (Agent.init [] true) offline)))
     = [].
Proof.
  split; [apply configured_init|].
  pose proof (canadian_search_outcome (Agent.init [] true) offline
                (configured_init [])) as H.
  destruct (search_canadian_archives (Agent.init [] true) offline)
    as [[sources ag'] w'].
  destruct H as (_ & H & _). cbn [fst snd]. rewrite H. reflexivity.
Defined.

Lemma search_stage_spec (ag : Agent) (w : World) :
  configured (api_clients ag) ->
  let '(ag', w') := search_stage ag w in
  let found :=
    records_of "Churchill Archives Centre" (answers (net w) (requests w) 1)
    ++ records_of "Library and Archives Canada" (answers (net w) (requests w + 1) 3)
    ++ records_of "University of Toronto Archives"
         (answers (net w) (requests w + 4) 3) in
  search_results ag' = search_results ag ++ found
  /\ List.length (most_likely_locations ag')
     = List.length (most_likely_locations ag) + List.length found
  /\ Forall (fun r => In (archive r) (map name (api_clients ag'))) found
  /\ configured (api_clients ag')
  /\ ocr_processor ag' = ocr_processor ag
  /\ requests w' = requests w + 7
  /\ same_oracles w w'
  /\ (search_results ag = [] ->
      (search_results ag' = [] <-> answers (net w) (requests w) 7 = [])).
Proof.
  intros Hc. unfold search_stage.
  pose proof (churchill_search_spec
                (Some "Fairfax Winston Churchill correspondence") ag w Hc) as H1.
  destruct (search_churchill_archives _ ag w) as [[l1 ag1] w1].
  cbn zeta in H1. destruct H1 as (A1 & A2 & A3 & A4 & A5 & A6 & A7).
  pose proof (canadian_search_spec ag1 w1 A5) as H2.
  destruct (search_canadian_archives ag1 w1) as [[l2 ag2] w2].
  cbn zeta in H2. destruct H2 as (B1 & B2 & B3 & B4 & B5 & B6 & B7).
  destruct A7 as (X & Y & Z). rewrite Y, A6 in B1, B2.
  replace (S (requests w)) with (requests w + 1) in B1, B2 by lia.
  replace (requests w + 1 + 3) with (requests w + 4) in B1, B2 by lia.
  assert (E1 : answers (net w) (requests w) 1 = usable_items (net w (requests w))).
  { unfold answers. simpl. rewrite app_nil_r. reflexivity. }
  rewrite E1.
  assert (Hres : search_results ag2
                 = search_results ag
                   ++ records_of "Churchill Archives Centre"
                        (usable_items (net w (requests w)))
                   ++ records_of "Library and Archives Canada"
                        (answers (net w) (requests w + 1) 3)
                   ++ records_of "University of Toronto Archives"
                        (answers (net w) (requests w + 4) 3)).
  { rewrite B2, A2, <- app_assoc. reflexivity. }
  split; [exact Hres|]. split.
  { rewrite B3, A3, B1, A1. unfold locations_of, records_of.
    rewrite !length_app, !length_map. lia. }
  split.
  { destruct B5 as [Hn _]. rewrite Hn. unfold records_of.
    rewrite !Forall_app. repeat split; apply Forall_forall; intros r Hr;
      apply in_map_iff in Hr; destruct Hr as (it & <- & _); simpl; auto. }
  split; [exact B5|]. split; [congruence|]. split; [lia|]. split.
  { eapply same_oracles_trans; [|exact B7]. repeat split; assumption. }
  intros E0. rewrite Hres, E0. cbn [app].
  change 7 with (1 + (3 + 3)). rewrite !answers_app, E1.
  replace (requests w + 1 + 3) with (requests w + 4) by lia.
  unfold records_of.
  split; intros H.
  - apply app_eq_nil in H. destruct H as [H1 H].
    apply app_eq_nil in H. destruct H as [H2 H3].
    apply map_eq_nil in H1, H2, H3. rewrite H1, H2, H3. reflexivity.
  - apply app_eq_nil in H. destruct H as [H1 H].
    apply app_eq_nil in H. destruct H as [H2 H3].
    rewrite H1, H2, H3. reflexivity.
Qed.

(** X6. Step 1 as a whole makes seven requests: one for the Churchill
    archive, then three for Library and Archives Canada and three for the
    University of Toronto.  The records it adds are the items of the usable
    responses in that order, each under the name of the archive asked; there
    is one location line per record; and every record carries the name of a
    client of the agent, so that [download_documents] finds a client for it.
    On an agent without earlier records, the stage finds nothing exactly
    when none of the seven responses has a usable item. *)
Theorem search_stage_outcome (ag : Agent) (w : World) :
  configured (api_clients ag) ->
  let '(ag', w') := search_stage ag w in
  let found :=
    records_of "Churchill Archives Centre" (answers (net w) (requests w) 1)
    ++ records_of "Library and Archives Canada" (answers (net w) (requests w + 1) 3)
    ++ records_of "University of Toronto Archives"
         (answers (net w) (requests w + 4) 3) in
  search_results ag' = search_results ag ++ found
  /\ List.length (most_likely_locations ag')
     = List.length (most_likely_locations ag) + List.length found
  /\ Forall (fun r => In (archive r) (map name (api_clients ag'))) found
  /\ configured (api_clients ag')
  /\ ocr_processor ag' = ocr_processor ag
  /\ requests w' = requests w + 7
  /\ same_oracles w w'
  /\ (search_results ag = [] ->
      (search_results ag' = [] <-> answers (net w) (requests w) 7 = [])).
Proof. exact (search_stage_spec ag w). Qed.

Lemma search_stage_outcome_witness :
  configured (api_clients (Agent.init [] true))
  /\ List.length (search_results (fst (search_stage (Agent.init [] true) helpful)))
     = 1.
Proof.
  split; [apply configured_init|].
  pose proof (search_stage_outcome (Agent.init [] true) helpful
                (configured_init [])) as H.
  destruct (search_stage (Agent.init [] true) helpful) as [ag' w'].
  destruct H as (H & _). cbn [fst]. rewrite H. reflexivity.
Defined.

End SearchStage.

(* ================================================================== *)
(** ** The download stage *)

Section DownloadStage.
Import Py Env Client Agent Spec.
Local Open Scope string_scope.
Local Open Scope list_scope.

Lemma subseq_nil_l {A : Type} (l : list A) : subseq [] l.
Proof. induction l; constructor; assumption. Qed.

Lemma subseq_length {A : Type} (l1 l2 : list A) :
  subseq l1 l2 -> List.length l1 <= List.length l2.
Proof. induction 1; simpl; lia. Qed.

Lemma find_client_nth n : forall cs i c,
  find_client n cs = Some (i, c) -> nth_error cs i = Some c /\ name c = n.
Proof.
  induction cs as [|c0 cs IH]; intros i c H; simpl in H; [discriminate|].
  destruct (String.eqb_spec (name c0) n).
  - inversion H; subst. split; reflexivity.
  - destruct (find_client n cs) as [[j c']|]; [|discriminate].
    inversion H; subst. simpl. apply IH. reflexivity.
Qed.

(** A download changes only the stamp of the client and leaves the oracles
    of the world alone. *)
Lemma download_document_image_frame c url path w :
  name (snd (fst (download_document_image c url path w))) = name c
  /\ same_oracles w (snd (download_document_image c url path w)).
Proof.
  unfold download_document_image.
  pose proof (rate_limit_world c w) as Hw.
  destruct (_rate_limit c w) as [c1 w1].
  destruct Hw as (So1 & _ & Hn & _).
  pose proof (download_loop_outcome url path MAX_DOWNLOAD_RETRIES 0 w1) as H.
  cbn zeta in H.
  destruct (download_loop MAX_DOWNLOAD_RETRIES 0 url path w1) as [ok w2].
  destruct H as (_ & _ & _ & So2). cbn [fst snd].
  split; [exact Hn | eapply same_oracles_trans; eauto].
Qed.

(** The loop over the image URLs of one record. *)
Lemma download_images_spec folder : forall urls i acc client w,
  let '(imgs, client', w') := download_images client folder urls i acc w in
  exists new,
    imgs = acc ++ new
    /\ subseq new (map (page_path folder) (seq i (List.length urls)))
    /\ name client' = name client
    /\ same_oracles w w'.
Proof.
  induction urls as [|url urls IH]; intros i acc client w.
  - cbn. exists []. rewrite app_nil_r.
    split; [reflexivity|]. split; [constructor|].
    split; [reflexivity | apply same_oracles_refl].
  - cbn [download_images List.length seq map].
    pose proof (download_document_image_frame client url (page_path folder i) w)
      as Hf.
    change (path_join folder ("page_" ++ Str.str_of_nat (i + 1) ++ ".jpg"))
      with (page_path folder i).
    destruct (download_document_image client url (page_path folder i) w)
      as [[ok client1] w1].
    cbn [fst snd] in Hf. destruct Hf as [Hn So].
    specialize (IH (S i) (if ok then acc ++ [page_path folder i] else acc)
                   client1 w1).
    destruct (download_images client1 folder urls (S i) _ w1)
      as [[imgs client'] w'].
    destruct IH as (new & E & Hs & Hn' & So').
    destruct ok.
    + exists (page_path folder i :: new).
      split; [rewrite E, <- app_assoc; reflexivity|].
      split; [constructor; exact Hs|].
      split; [congruence | eapply same_oracles_trans; eauto].
    + exists new. split; [exact E|].
      split; [constructor; exact Hs|].
      split; [congruence | eapply same_oracles_trans; eauto].
Qed.

(** The loop over the prioritized records. *)
Lemma download_loop_docs_spec : forall results max_docs count acc clients w,
  let '(docs, clients', w') :=
    download_loop_docs results max_docs count acc clients w in
  exists new rs,
    docs = acc ++ new
    /\ subseq rs results
    /\ Forall2 comes_from new rs
    /\ Forall (fun r => In (archive r) (map name clients)) rs
    /\ (Z.of_nat count + Z.of_nat (List.length new)
        <= Z.max max_docs (Z.of_nat count))%Z
    /\ map name clients' = map name clients
    /\ same_oracles w w'.
Proof.
  induction results as [|result rest IH]; intros max_docs count acc clients w.
  - cbn. exists [], []. rewrite app_nil_r.
    split; [reflexivity|]. split; [constructor|]. split; [constructor|].
    split; [constructor|]. split; [simpl; lia|].
    split; [reflexivity | apply same_oracles_refl].
  - cbn [download_loop_docs].
    destruct (Z.geb_spec (Z.of_nat count) max_docs) as [Hfull|Hroom].
    { exists [], []. rewrite app_nil_r.
      split; [reflexivity|]. split; [apply subseq_nil_l|].
      split; [constructor|]. split; [constructor|]. split; [simpl; lia|].
      split; [reflexivity | apply same_oracles_refl]. }
    assert (Hskip :
              let '(docs, clients', w') :=
                download_loop_docs rest max_docs count acc clients w in
              exists new rs,
                docs = acc ++ new /\ subseq rs (result :: rest)
                /\ Forall2 comes_from new rs
                /\ Forall (fun r => In (archive r) (map name clients)) rs
                /\ (Z.of_nat count + Z.of_nat (List.length new)
                    <= Z.max max_docs (Z.of_nat count))%Z
                /\ map name clients' = map name clients
                /\ same_oracles w w').
    { specialize (IH max_docs count acc clients w).
      destruct (download_loop_docs rest max_docs count acc clients w)
        as [[docs clients'] w'].
      destruct IH as (new & rs & H1 & H2 & H3).
      exists new, rs. split; [exact H1|]. split; [constructor; exact H2|].
      exact H3. }
    destruct (find_client (archive result) clients) as [[i client]|] eqn:Ef;
      [|exact Hskip].
    destruct (image_urls result) as [|u us] eqn:Eu; [exact Hskip|].
    clear Hskip. rewrite <- Eu.
    destruct (find_client_nth _ _ _ _ Ef) as [Hnth Hname].
    pose proof (download_images_spec (doc_folder_of result) (image_urls result)
                  0 [] client w) as Hd.
    change (path_join DOWNLOAD_DIR
              (archive result ++ "_" ++ Str.replace_char "/" "_" (reference result)))
      with (doc_folder_of result).
    destruct (download_images client (doc_folder_of result) (image_urls result)
                0 [] w) as [[imgs client'] w1].
    destruct Hd as (newi & Ei & Hsi & Hn1 & So1). cbn [app] in Ei. subst newi.
    destruct (store_client_same client' clients i client Hnth) as (_ & Hnm & _).
    specialize (Hnm Hn1).
    destruct imgs as [|img imgs].
    + specialize (IH max_docs count acc (store_client i client' clients) w1).
      destruct (download_loop_docs rest max_docs count acc _ w1)
        as [[docs clients''] w'].
      destruct IH as (new & rs & H1 & H2 & H3 & H4 & H5 & H6 & H7).
      exists new, rs. split; [exact H1|]. split; [constructor; exact H2|].
      split; [exact H3|]. split; [rewrite <- Hnm; exact H4|].
      split; [exact H5|]. split; [congruence|].
      eapply same_oracles_trans; eauto.
    + specialize (IH max_docs (S count)
                     (acc ++ [mkDoc (archive result) (reference result)
                                    (title result) (date result) (img :: imgs)])
                     (store_client i client' clients) w1).
      destruct (download_loop_docs rest max_docs (S count) _ _ w1)
        as [[docs clients''] w'].
      destruct IH as (new & rs & H1 & H2 & H3 & H4 & H5 & H6 & H7).
      exists (mkDoc (archive result) (reference result) (title result)
                    (date result) (img :: imgs) :: new), (result :: rs).
      split; [rewrite H1, <- app_assoc; reflexivity|].
      split; [constructor; exact H2|].
      split.
      { constructor; [|exact H3].
        unfold comes_from. cbn.
        repeat (split; [reflexivity|]). split; [discriminate|exact Hsi]. }
      split.
      { constructor; [|rewrite <- Hnm; exact H4].
        rewrite <- Hname. apply in_map. eapply nth_error_In; eauto. }
      split; [cbn [List.length]; lia|]. split; [congruence|].
      eapply same_oracles_trans; eauto.
Qed.

Lemma prioritize_length results :
  List.length (prioritize results) = List.length results.
Proof. apply Permutation_length, sorted_perm. Qed.

(** X7. [download_documents] returns at most [max_docs] documents, never
    more than there are records, each with at least one image; it changes
    neither the records nor the locations of the agent; and with
    [max_docs <= 0] it returns nothing and touches neither a client nor the
    network. *)
Theorem download_documents_bounds (max_docs : Z) (ag : Agent) (w : World) :
  let '(docs, ag', w') := download_documents max_docs ag w in
  (Z.of_nat (List.length docs) <= Z.max 0 max_docs)%Z
  /\ List.length docs <= List.length (search_results ag)
  /\ Forall (fun d => d_images d <> []) docs
  /\ search_results ag' = search_results ag
  /\ most_likely_locations ag' = most_likely_locations ag
  /\ ocr_processor ag' = ocr_processor ag
  /\ map name (api_clients ag') = map name (api_clients ag)
  /\ same_oracles w w'
  /\ ((max_docs <= 0)%Z -> docs = [] /\ ag' = ag /\ w' = w).
Proof.
  unfold download_documents.
  pose proof (download_loop_docs_spec (prioritize (search_results ag)) max_docs
                0 [] (api_clients ag) w) as H.
  assert (Hzero : (max_docs <= 0)%Z ->
                  download_loop_docs (prioritize (search_results ag)) max_docs
                                     0 [] (api_clients ag) w
                  = ([], api_clients ag, w)).
  { intros Hm. destruct (prioritize (search_results ag)); [reflexivity|].
    cbn [download_loop_docs].
    destruct (Z.geb_spec (Z.of_nat 0) max_docs); [reflexivity|simpl in *; lia]. }
  destruct (download_loop_docs _ max_docs 0 [] (api_clients ag) w)
    as [[docs clients'] w'].
  destruct H as (new & rs & E & Hs & Hf & _ & Hb & Hn & So).
  cbn [app] in E. subst new.
  split; [simpl in Hb; lia|]. split.
  { rewrite (Forall2_length Hf), <- (prioritize_length (search_results ag)).
    apply subseq_length, Hs. }
  split.
  { clear - Hf. induction Hf as [|d r ds rs' Hd _ IH]; constructor; [|exact IH].
    destruct Hd as (_ & _ & _ & _ & Hi & _). exact Hi. }
  split; [reflexivity|]. split; [reflexivity|]. split; [reflexivity|].
  split; [exact Hn|]. split; [exact So|].
  intros Hm. specialize (Hzero Hm). inversion Hzero; subst.
  split; [reflexivity|]. split; [destruct ag; reflexivity | reflexivity].
Qed.

(** X8. The downloaded documents are made, in order, from a subsequence of
    the prioritized records: each copies archive, reference, title and date
    of its record, that record names a client of the agent and has image
    URLs, and the images of the document are, in page order, some of the
    paths [page_1.jpg], [page_2.jpg], ... of the folder of the record (those
    whose download succeeded). *)
Theorem download_documents_provenance (max_docs : Z) (ag : Agent) (w : World) :
  exists rs,
    subseq rs (prioritize (search_results ag))
    /\ Forall2 comes_from (fst (fst (download_documents max_docs ag w))) rs
    /\ Forall (fun r => In (archive r) (map name (api_clients ag))
                        /\ image_urls r <> []) rs
    /\ Forall2 (fun d r => List.length (d_images d) <= List.length (image_urls r))
               (fst (fst (download_documents max_docs ag w))) rs.
Proof.
  unfold download_documents.
  pose proof (download_loop_docs_spec (prioritize (search_results ag)) max_docs
                0 [] (api_clients ag) w) as H.
  destruct (download_loop_docs _ max_docs 0 [] (api_clients ag) w)
    as [[docs clients'] w'].
  destruct H as (new & rs & E & Hs & Hf & Hin & _).
  cbn [app] in E. subst new. cbn [fst].
  assert (Hlen : forall d r, comes_from d r ->
                   List.length (d_images d) <= List.length (image_urls r)).
  { intros d r (_ & _ & _ & _ & _ & Hsub).
    apply subseq_length in Hsub. unfold page_paths in Hsub.
    rewrite length_map, length_seq in Hsub. exact Hsub. }
  exists rs. split; [exact Hs|]. split; [exact Hf|]. split.
  - clear Hs. induction Hf as [|d r ds rs' Hd _ IH]; [constructor|].
    inversion Hin; subst. constructor; [|apply IH; assumption].
    split; [assumption|].
    pose proof (Hlen d r Hd) as Hl. destruct Hd as (_ & _ & _ & _ & Hi & _).
    intros E. rewrite E in Hl. destruct (d_images d); [congruence|simpl in Hl; lia].
  - clear Hs Hin. induction Hf; constructor; auto.
Qed.

End DownloadStage.

(* ================================================================== *)
(** ** Reading nothing: OCR switched off or failing *)

Section NoOcr.
Import Py Env Client Scorer Agent Spec.
Local Open Scope string_scope.
Local Open Scope list_scope.















End NoOcr.

(* ================================================================== *)
(** ** The letter extractor *)

Section LetterExtractor.
Import Py Env Client Scorer Agent Spec.
Local Open Scope string_scope.
Local Open Scope list_scope.

Lemma StronglySorted_weaken {A : Type} (R R' : A -> A -> Prop) l :
  (forall x y, R x y -> R' x y) -> StronglySorted R l -> StronglySorted R' l.
Proof.
  intros HR. induction 1 as [|x l Hl IH Hx]; constructor; [exact IH|].
  eapply Forall_impl; [|exact Hx]. intros y. apply HR.
Qed.

Lemma StronglySorted_split {A : Type} (R : A -> A -> Prop) : forall l n x y,
  StronglySorted R l -> In x (firstn n l) -> In y (skipn n l) -> R x y.
Proof.
  induction l as [|a l IH]; intros n x y Hs Hx Hy.
  - destruct n; destruct Hx.
  - destruct n as [|n]; [destruct Hx|].
    inversion Hs as [|? ? Hl Ha]; subst. simpl in Hx, Hy.
    destruct Hx as [<-|Hx]; [|eapply IH; eauto].
    rewrite Forall_forall in Ha. apply Ha.
    rewrite <- (firstn_skipn n l). apply in_or_app. right. exact Hy.
Qed.

Lemma candidates_length ocr_results :
  List.length (candidates ocr_results) <= List.length ocr_results.
Proof.
  unfold candidates. induction ocr_results as [|d ds IH]; simpl; [lia|].
  rewrite length_app. destruct (letter_of d); simpl; lia.
Qed.

Lemma extract_letter_content_sorted_spec (ocr_results : list OcrResult) :
  let out := extract_letter_content ocr_results in
  StronglySorted score_desc out
  /\ Permutation out (candidates ocr_results)
  /\ (forall k, filter (fun e => (l_relevance_score e =? k)%Z) out
                = filter (fun e => (l_relevance_score e =? k)%Z)
                         (candidates ocr_results))
  /\ List.length out <= List.length ocr_results
  /\ (forall n t e, In t (firstn n out) -> In e (skipn n out) -> score_desc t e).
Proof.
  cbn zeta. unfold extract_letter_content, sorted_reverse.
  rewrite extract_loop_eq. cbn [app]. fold (candidates ocr_results).
  set (key := fun x : Letter => (- l_relevance_score x)%Z).
  assert (Hs : StronglySorted score_desc (sorted key (candidates ocr_results))).
  { apply (StronglySorted_weaken (fun x y => (key x <= key y)%Z)).
    - unfold key, score_desc. intros x y H. lia.
    - apply sorted_ordered. }
  split; [exact Hs|]. split; [apply sorted_perm|]. split.
  { intros k. pose proof (sorted_stable key (- k)%Z (candidates ocr_results)) as H.
    unfold with_key in H.
    rewrite (filter_ext (fun e => (l_relevance_score e =? k)%Z)
                        (fun x => (key x =? - k)%Z)).
    - rewrite H. apply filter_ext. intros e. unfold key.
      destruct (Z.eqb_spec (- l_relevance_score e) (- k)),
        (Z.eqb_spec (l_relevance_score e) k); try reflexivity; lia.
    - intros e. unfold key.
      destruct (Z.eqb_spec (- l_relevance_score e) (- k)),
        (Z.eqb_spec (l_relevance_score e) k); try reflexivity; lia. }
  split.
  { rewrite (Permutation_length (sorted_perm key (candidates ocr_results))).
    apply candidates_length. }
  intros n t e Ht He. eapply StronglySorted_split; eauto.
Qed.

(** X10. [extract_letter_content] returns the letters of the documents that
    yield one, ordered by relevance score from high to low; letters of equal
    score keep the order of their documents; there is at most one letter per
    document; and the first [n] letters score at least as high as all the
    others. *)
Theorem extract_letter_content_sorted (ocr_results : list OcrResult) :
  let out := extract_letter_content ocr_results in
  StronglySorted score_desc out
  /\ Permutation out (candidates ocr_results)
  /\ (forall k, filter (fun e => (l_relevance_score e =? k)%Z) out
                = filter (fun e => (l_relevance_score e =? k)%Z)
                         (candidates ocr_results))
  /\ List.length out <= List.length ocr_results
  /\ (forall n t e, In t (firstn n out) -> In e (skipn n out) -> score_desc t e).
Proof. exact (extract_letter_content_sorted_spec ocr_results). Qed.

(** The tests of the loop are kept by every turn. *)
Ltac field_cases :=
  unfold state_valid, fields_valid in *;
  cbn [letter_content in_body body_lines c_date c_salutation c_signature c_body
       with_date with_salutation with_signature with_body] in *;
  repeat match goal with
         | |- _ /\ _ => split
         | H : _ /\ _ |- _ => destruct H
         end;
  try assumption;
  try (intros; discriminate);
  try (intros v Hv; inversion Hv; subst; assumption);
  try (intros; auto; congruence).

Lemma line_step_valid st raw : state_valid st -> state_valid (line_step st raw).
Proof.
  intros H. unfold line_step.
  destruct (Str.is_empty (Str.strip raw)); [exact H|].
  destruct (negb (truthy (c_date (letter_content st)))
            && Re.found false date_line_pattern (Str.strip raw)) eqn:E1.
  { apply andb_true_iff in E1. destruct E1 as [_ E1]. field_cases. }
  destruct (negb (truthy (c_salutation (letter_content st)))
            && Str.startswith "Dear" (Str.strip raw)) eqn:E2.
  { apply andb_true_iff in E2. destruct E2 as [_ E2]. field_cases. }
  destruct (in_body st) eqn:Eb; cbn [andb].
  - destruct (Str.contains "Sincerely" (Str.strip raw)
              || Str.contains "Yours" (Str.strip raw)) eqn:E3; field_cases.
  - exact H.
Qed.

Lemma fold_line_valid lines : forall st,
  state_valid st -> state_valid (fold_left line_step lines st).
Proof.
  induction lines as [|l lines IH]; intros st H; simpl; [exact H|].
  apply IH, line_step_valid, H.
Qed.

Lemma start_state_valid : state_valid start_state /\ c_body empty_content = None.
Proof.
  split; [|reflexivity]. unfold start_state, empty_content. field_cases.
Qed.

Lemma line_step_body st raw :
  c_body (letter_content (line_step st raw)) = c_body (letter_content st).
Proof.
  unfold line_step.
  repeat match goal with
         | |- context [if ?b then _ else _] => destruct b
         end; reflexivity.
Qed.

Lemma fold_line_body lines : forall st,
  c_body (letter_content (fold_left line_step lines st))
  = c_body (letter_content st).
Proof.
  induction lines as [|l lines IH]; intros st; simpl; [reflexivity|].
  rewrite IH. apply line_step_body.
Qed.

Lemma extract_fields_valid_spec all_text : fields_valid (extract_fields all_text).
Proof.
  unfold extract_fields.
  pose proof (fold_line_valid (Str.split_nl all_text) start_state
                (proj1 start_state_valid)) as H.
  destruct H as (Hf & _ & Hbl).
  destruct (body_lines (fold_left line_step (Str.split_nl all_text) start_state))
    as [|b bs] eqn:E; [exact Hf|].
  destruct Hf as (Vd & Vs & Vg & Dg & Db).
  split; [|split; [|split; [|split]]];
    cbn [c_date c_salutation c_signature c_body with_body]; try assumption.
  intros _. apply Hbl. discriminate.
Qed.

(** X11. In what [extract_letter_content] extracts from a text, the date is
    a line that matches the date pattern, the salutation a line that starts
    with "Dear", the signature a line that contains "Sincerely" or "Yours";
    and a signature or a body is never recorded without a salutation. *)
Theorem extract_fields_valid (all_text : string) :
  fields_valid (extract_fields all_text).
Proof. exact (extract_fields_valid_spec all_text). Qed.

Lemma salutation_needed c :
  fields_valid c -> 2 <= len c ->
  exists v, c_salutation c = Some v /\ Str.startswith "Dear" v = true.
Proof.
  intros (_ & Vs & _ & Dg & Db) Hl.
  destruct (c_salutation c) as [v|] eqn:E; [exists v; auto|].
  exfalso. unfold len in Hl. rewrite E in Hl.
  destruct (c_signature c); [apply Dg; [discriminate|reflexivity]|].
  destruct (c_body c); [apply Db; [discriminate|reflexivity]|].
  destruct (c_date c); simpl in Hl; lia.
Qed.

Lemma no_dear_no_salutation lines : forall st,
  c_salutation (letter_content st) = None ->
  (forall l, In l lines -> Str.startswith "Dear" (Str.strip l) = false) ->
  c_salutation (letter_content (fold_left line_step lines st)) = None.
Proof.
  induction lines as [|l lines IH]; intros st Hs Hl; simpl; [exact Hs|].
  apply IH; [|intros l' Hl'; apply Hl; right; exact Hl'].
  unfold line_step. rewrite (Hl l (or_introl eq_refl)), andb_false_r.
  repeat match goal with
         | |- context [if ?b then _ else _] => destruct b
         end; exact Hs.
Qed.

(** X12. Every extracted letter has a salutation, a line that starts with
    "Dear": the two fields the extractor asks for cannot be reached without
    one.  A document none of whose lines starts with "Dear" (after
    stripping) therefore yields no letter, whatever its analysis says. *)
Theorem letters_need_salutation (ocr_results : list OcrResult) (e : Letter) :
  In e (extract_letter_content ocr_results) ->
  (exists v, c_salutation (extracted_content e) = Some v
             /\ Str.startswith "Dear" v = true)
  /\ (forall all_text,
        2 <= len (extract_fields all_text) ->
        c_salutation (extract_fields all_text) <> None)
  /\ (forall doc,
        (forall l, In l (stripped_lines (all_text_of doc)) ->
                   Str.startswith "Dear" l = false) ->
        letter_of doc = None).
Proof.
  intros He. split; [|split].
  - apply in_extract_letter_content in He. destruct He as (doc & _ & Hl).
    unfold letter_of in Hl.
    destruct (analysis doc) as [a|]; [|discriminate].
    destruct (negb (likely_correspondence a)); [discriminate|].
    destruct (Nat.leb 2 (len (extract_fields (all_text_of doc)))) eqn:L2;
      [|discriminate].
    inversion Hl; subst. cbn [extracted_content].
    apply salutation_needed; [apply extract_fields_valid_spec|].
    apply Nat.leb_le. exact L2.
  - intros all_text Hl.
    destruct (salutation_needed _ (extract_fields_valid_spec all_text) Hl)
      as (v & -> & _). discriminate.
  - intros doc Hno. unfold letter_of.
    destruct (analysis doc) as [a|]; [|reflexivity].
    destruct (negb (likely_correspondence a)); [reflexivity|].
    destruct (Nat.leb 2 (len (extract_fields (all_text_of doc)))) eqn:L2;
      [|reflexivity].
    exfalso. apply Nat.leb_le in L2.
    destruct (salutation_needed _ (extract_fields_valid_spec (all_text_of doc)) L2)
      as (v & Ev & _).
    assert (En : c_salutation (extract_fields (all_text_of doc)) = None).
    { unfold extract_fields.
      assert (Hs : c_salutation
                     (letter_content
                        (fold_left line_step (Str.split_nl (all_text_of doc))
                                   start_state)) = None).
      { apply no_dear_no_salutation; [reflexivity|].
        intros l Hl. apply Hno. unfold stripped_lines. apply in_map. exact Hl. }
      destruct (body_lines _); cbn [with_body c_salutation]; exact Hs. }
    congruence.
Qed.

Lemma letters_need_salutation_witness :
  exists e v,
    In e (extract_letter_content
            [mkOcr "Churchill Archives Centre" "CHAR 2/1" "Letter" "12 Nov 1946"
                   [mkPage "page_1.jpg" late_date_letter]
                   (Some (mkAnalysis true true true None 20))])
    /\ c_salutation (extracted_content e) = Some v
    /\ Str.startswith "Dear" v = true.
Proof.
  eexists.
  assert (H : In (mkLetter "Churchill Archives Centre" "CHAR 2/1" "Letter"
                           "12 Nov 1946" (extract_fields late_date_letter) 20
                           late_date_letter)
                 (extract_letter_content
                    [mkOcr "Churchill Archives Centre" "CHAR 2/1" "Letter"
                           "12 Nov 1946" [mkPage "page_1.jpg" late_date_letter]
                           (Some (mkAnalysis true true true None 20))])).
  { left. reflexivity. }
  destruct (proj1 (letters_need_salutation _ _ H)) as (v & Hv & Hd).
  exists v. split; [exact H|]. split; [exact Hv|exact Hd].
Defined.

End LetterExtractor.

(* ================================================================== *)
(** ** The date of a letter, the report, the recorded date *)

Section DatesAndReport.
Import Py Env Client Scorer Agent Spec.
Local Open Scope string_scope.
Local Open Scope list_scope.

(** One turn of the loop, as far as the date is concerned. *)
Lemma line_step_date st raw :
  (forall v, c_date (letter_content st) = Some v -> v <> "") ->
  c_date (letter_content (line_step st raw))
  = match c_date (letter_content st) with
    | Some v => Some v
    | None => if is_date_line (Str.strip raw) then Some (Str.strip raw) else None
    end.
Proof.
  intros Hne. unfold line_step, is_date_line.
  destruct (c_date (letter_content st)) as [v|] eqn:Ed.
  - assert (Ht : truthy (Some v) = true).
    { specialize (Hne v eq_refl). destruct v; [congruence|reflexivity]. }
    rewrite Ht. cbn [negb andb].
    repeat match goal with
           | |- context [if ?b then _ else _] => destruct b
           end; cbn [letter_content c_date with_salutation with_signature];
      exact Ed.
  - cbn [truthy negb andb].
    destruct (Str.is_empty (Str.strip raw)); cbn [negb andb]; [exact Ed|].
    destruct (Re.found false date_line_pattern (Str.strip raw)); [reflexivity|].
    repeat match goal with
           | |- context [if ?b then _ else _] => destruct b
           end; cbn [letter_content c_date with_salutation with_signature];
      exact Ed.
Qed.

Lemma fold_line_date lines : forall st,
  (forall v, c_date (letter_content st) = Some v -> v <> "") ->
  c_date (letter_content (fold_left line_step lines st))
  = match c_date (letter_content st) with
    | Some v => Some v
    | None => find is_date_line (map Str.strip lines)
    end.
Proof.
  induction lines as [|l lines IH]; intros st Hne; cbn [fold_left map find].
  - destruct (c_date (letter_content st)); reflexivity.
  - pose proof (line_step_date st l Hne) as Hs.
    rewrite IH.
    + rewrite Hs. destruct (c_date (letter_content st)); [reflexivity|].
      destruct (is_date_line (Str.strip l)); reflexivity.
    + intros v Hv. rewrite Hs in Hv.
      destruct (c_date (letter_content st)) as [v0|] eqn:E.
      * inversion Hv; subst. apply Hne. reflexivity.
      * unfold is_date_line in Hv.
        destruct (Str.strip l) as [|a s]; [discriminate|].
        destruct (negb _ && _); inversion Hv. discriminate.
Qed.

(** X13. The date field of an extracted letter is the first line of the text
    that, once stripped, is not blank and matches the date pattern, wherever
    that line stands: before the salutation, inside the body or after the
    signature.  There is no date field exactly when the text has no such
    line. *)
Theorem date_is_first_date_line (all_text : string) :
  c_date (extract_fields all_text) = find is_date_line (stripped_lines all_text).
Proof.
  unfold extract_fields, stripped_lines.
  pose proof (fold_line_date (Str.split_nl all_text) start_state) as H.
  cbn [start_state letter_content empty_content c_date] in H.
  destruct (body_lines _); cbn [with_body c_date]; apply H; discriminate.
Qed.

(** The day of a capture, which [date_pattern_capture] leaves out. *)
Lemma date_pattern_day prev s c rest g :
  In (c, rest, g) (Re.rmatch false date_pattern prev s) ->
  exists d tl, g = d :: tl /\ day_shape d.
Proof.
  unfold date_pattern. intros H.
  apply rmatch_seq_in in H.
  destruct H as (c1 & s1 & g1 & c2 & g2 & H1 & _ & _ & ->).
  apply rmatch_group_in in H1. destruct H1 as (g1' & -> & H1).
  apply rmatch_rep_in in H1. destruct H1 as [-> H1].
  apply rep_class_in in H1. destruct H1 as (_ & Hlen & Hcl).
  exists c1, g2. split; [reflexivity|]. split; [exact Hlen|exact Hcl].
Qed.

Lemma first_date_day text m :
  first_date text = Some m -> exists d tl, m = d :: tl /\ day_shape d.
Proof.
  unfold first_date. intros H.
  assert (Hin : In m (Re.findall date_pattern text)).
  { destruct (Re.findall date_pattern text); inversion H; subst. left; reflexivity. }
  apply findall_from_in in Hin. destruct Hin as (prev & s0 & c & rest & Hin).
  eapply date_pattern_day; eauto.
Qed.

(** X15. The date [analyze_text] records is rebuilt from the three captures
    of the first match: one or two digits, one of the twelve month names and
    a year 19dd, joined by single spaces whatever white space the text had
    between them.  No date is recorded exactly when the date pattern matches
    nowhere in the text. *)
Theorem date_found_normalised (text : string) :
  match date_found (analyze_text text) with
  | Some s =>
      exists d mo y,
        s = (d ++ " " ++ mo ++ " " ++ y)%string
        /\ day_shape d /\ In mo month_names /\ year_shape y
        /\ first_date text = Some [d; mo; y]
  | None => Re.search false date_pattern text = None
  end.
Proof.
  rewrite analyze_text_eq. cbn zeta. cbn [date_found].
  destruct (first_date text) as [m|] eqn:E; cbn [option_map].
  - destruct (first_date_capture text m E) as (d & mo & y & -> & Hmo & Hy).
    destruct (first_date_day text _ E) as (d' & tl & Em & Hd).
    inversion Em; subst d' tl.
    exists d, mo, y. repeat (split; [first [reflexivity|assumption]|]).
    reflexivity.
  - unfold first_date in E. rewrite findall_head_search in E.
    destruct (Re.search false date_pattern text) as [[[c r] g]|];
      [discriminate|reflexivity].
Qed.

(** X14. A report that lists top matches comes from a run that reached the
    OCR stage: it has no reason, it counts at least one record and between 1
    and 10 processed documents, [potential_letters_found] is the number of
    letters extracted, and [top_matches] holds the first three of them (all
    of them when there are fewer), none of which scores lower than a letter
    left out. *)
Theorem report_contents (ag : Agent) (w : World) (tm : list Letter) :
  top_matches (fst (fst (execute_full_search ag w))) = Some tm ->
  let r := fst (fst (execute_full_search ag w)) in
  let letters := letters_extracted ag w in
  reason r = None
  /\ potential_letters_found r = Some (List.length letters)
  /\ tm = firstn 3 letters
  /\ List.length tm = Nat.min 3 (List.length letters)
  /\ (forall t e, In t tm -> In e letters -> In e tm \/ score_desc t e)
  /\ documents_processed r = Some (List.length (documents_downloaded ag w))
  /\ 1 <= List.length (documents_downloaded ag w) <= 10
  /\ search_results_count r = Some (List.length (records_found ag w))
  /\ 1 <= List.length (records_found ag w).
Proof.
  cbn zeta.
  unfold letters_extracted, documents_downloaded, records_found, download_stage,
    execute_full_search, search_stage.
  destruct (search_churchill_archives _ ag w) as [[r1 ag1] w1].
  destruct (search_canadian_archives ag1 w1) as [[r2 ag2] w2].
  cbn [fst snd].
  destruct (search_results ag2) as [|rec recs] eqn:E2; [cbn; discriminate|].
  pose proof (download_loop_docs_spec (prioritize (search_results ag2)) 10 0 []
                (api_clients ag2) w2) as Hd.
  unfold download_documents.
  destruct (download_loop_docs _ 10 0 [] (api_clients ag2) w2)
    as [[docs clients'] w3].
  destruct Hd as (new & rs & E & _ & _ & _ & Hb & _). cbn [app] in E. subst new.
  destruct docs as [|doc docs]; [cbn; discriminate|].
  remember (process_ocr (doc :: docs) (set_clients clients' ag2) w3) as ocr eqn:Eo.
  remember (extract_letter_content ocr) as letters eqn:El.
  cbv beta iota delta [fst snd top_matches reason potential_letters_found
                       documents_processed search_results_count].
  intros Htm.
  assert (Et : tm = firstn 3 letters) by congruence. clear Htm. subst tm.
  split; [reflexivity|]. split; [reflexivity|]. split; [reflexivity|].
  split; [apply length_firstn|]. split.
  { intros t e Ht He.
    rewrite <- (firstn_skipn 3 letters) in He. apply in_app_or in He.
    destruct He as [He|He]; [left; exact He|right].
    destruct (extract_letter_content_sorted_spec ocr) as (_ & _ & _ & _ & Htop).
    rewrite <- El in Htop. exact (Htop 3 t e Ht He). }
  split; [rewrite Eo; unfold process_ocr; rewrite length_map; reflexivity|].
  split; [cbn [List.length] in *; lia|].
  cbn [set_clients search_results]. rewrite E2.
  split; [reflexivity | simpl; lia].
Qed.

Lemma report_contents_witness :
  exists tm,
    top_matches (fst (fst (execute_full_search (Agent.init [] true) helpful)))
    = Some tm
    /\ List.length tm
       = Nat.min 3 (List.length (letters_extracted (Agent.init [] true) helpful)).
Proof.
  eexists. split.
  - vm_compute. reflexivity.
  - match goal with
    | |- List.length ?tm = _ =>
        exact (proj1 (proj2 (proj2 (proj2
                 (report_contents (Agent.init [] true) helpful tm eq_refl)))))
    end.
Defined.

End DatesAndReport.

(* ================================================================== *)
(** ** How long the limiter can hold a call *)

Section BoundedWait.
Import Py Env Client Agent Spec.
Local Open Scope string_scope.
Local Open Scope list_scope.

(** X16. The limiter holds a call for at most one interval: when the stamp
    of the client is not ahead of the clock (as after [__init__] and after
    every call), [_rate_limit] sleeps at most once, for no longer than
    [RATE_LIMIT_DELAY], and not at all when the last request is an interval
    or more in the past; the new stamp is again not ahead of the clock. *)
Theorem rate_limit_bounded_wait (c : Client) (w : World) :
  steady w ->
  (last_request_time c <= clock w)%Q ->
  exists evs,
    trace (snd (_rate_limit c w)) = trace w ++ evs
    /\ List.length evs <= 1
    /\ (0 <= slept evs)%Q /\ (slept evs <= RATE_LIMIT_DELAY)%Q
    /\ ((last_request_time c + RATE_LIMIT_DELAY <= clock w)%Q -> evs = [])
    /\ (last_request_time (fst (_rate_limit c w))
        <= clock (snd (_rate_limit c w)))%Q
    /\ requests (snd (_rate_limit c w)) = requests w.
Proof.
  intros Hs Hle.
  unfold _rate_limit, time_time, time_sleep, emit, elapse, RATE_LIMIT_DELAY.
  cbn [fst snd clock lag ticks net requests ocr_engine trace].
  pose proof (Hs (ticks w)) as H0.
  destruct (Qle_bool 1 (clock w + lag w (ticks w) - last_request_time c)) eqn:E;
    cbn [negb fst snd clock lag ticks net requests ocr_engine trace
         last_request_time set_last_request_time].
  - exists []. rewrite app_nil_r. cbn [slept List.length].
    repeat (split; [first [reflexivity | lia | lra]|]). reflexivity.
  - apply not_true_iff_false in E. rewrite Qle_bool_iff in E.
    exists [EvSleep (1 - (clock w + lag w (ticks w) - last_request_time c))].
    cbn [slept List.length].
    split; [reflexivity|]. split; [lia|]. split; [lra|]. split; [lra|].
    split; [intros H; exfalso; apply E; lra|]. split; [lra|reflexivity].
Qed.

Lemma rate_limit_bounded_wait_witness :
  steady offline
  /\ exists evs,
       trace (snd (_rate_limit churchill_client offline)) = trace offline ++ evs
       /\ List.length evs <= 1.
Proof.
  assert (H : steady offline).
  { intros n. unfold Qle. simpl. lia. }
  split; [exact H|].
  destruct (rate_limit_bounded_wait churchill_client offline H) as (evs & T & L & _).
  - unfold Qle. simpl. lia.
  - exists evs. split; [exact T | exact L].
Defined.

End BoundedWait.
